(** * maya_signatures.commands.scrape: the Scrape command

    A shallow embedding of [src/maya_signatures/commands/scrape.py] and the
    properties its specification states about it.

    Conventions of the embedding.
    - The source runs under Python 2.  A [str] is a [string]; the text
      bs4 gives for a page is [unicode], modelled as the list of its code
      points, and [str(...)] of it raises when it is not ASCII.
    - A [dict] is a [gmap]; where the source walks a dict, the walk order is
      a parameter of the section.
    - A raised exception is the [Raise] branch of [result], sequenced with
      stdpp's monadic bind.
    - Libraries the module calls (bs4's rendering, json, requests) are
      parameters of the sections that need them.
    - [print] calls are not modelled. *)

From Stdlib Require Import Ascii String List Arith NArith Lia.
From stdpp Require Import base option list gmap strings fin_maps.

Local Open Scope list_scope.

(** ** Exceptions and fallible computations *)

(** The exception classes, each with its subclasses: a
    [UnicodeEncodeError] is a [ValueError], as the handlers of the module
    see it. *)
Inductive exn : Type :=
  | IndexError
  | AttributeError
  | ValueError
  | KeyError
  | IOError
  | ConnectionError.

#[global] Instance exn_eq_dec : EqDecision exn.
Proof. solve_decision. Defined.

Inductive result (A : Type) : Type :=
  | Return (a : A)
  | Raise (e : exn).
Arguments Return {A} a.
Arguments Raise {A} e.

#[global] Instance result_fmap : FMap result := λ A B f c,
  match c with
  | Return a => Return (f a)
  | Raise e => Raise e
  end.
#[global] Instance result_ret : MRet result := λ A a, Return a.
#[global] Instance result_bind : MBind result := λ A B k c,
  match c with
  | Return a => k a
  | Raise e => Raise e
  end.

(** ** Python string primitives *)

Module Py.

Definition newline : ascii := "010"%char.
Definition tab : ascii := "009"%char.

(** [unicode.isspace] of one code point, as Python 2.7 has it: TAB to CR,
    FS to US, the space, NEL, the no-break space, the Ogham space mark,
    the Mongolian vowel separator, EN QUAD to HAIR SPACE, the line and
    paragraph separators, the narrow no-break space, the medium
    mathematical space and the ideographic space. *)
Definition isspace (c : N) : bool :=
  ((9 <=? c) && (c <=? 13) || (28 <=? c) && (c <=? 32) ||
   (c =? 133) || (c =? 160) || (c =? 5760) || (c =? 6158) ||
   (8192 <=? c) && (c <=? 8202) || (c =? 8232) || (c =? 8233) ||
   (c =? 8239) || (c =? 8287) || (c =? 12288))%N.

Fixpoint lstrip (x : list N) : list N :=
  match x with
  | [] => []
  | c :: x' => if isspace c then lstrip x' else x
  end.

Definition rstrip (x : list N) : list N := rev (lstrip (rev x)).

(** [x.strip()] of a unicode text. *)
Definition strip (x : list N) : list N := rstrip (lstrip x).

(** The unicode text of an ASCII literal. *)
Definition u (s : string) : list N :=
  List.map N_of_ascii (list_ascii_of_string s).

(** [str(x)] of a unicode text: its ASCII encoding, [UnicodeEncodeError]
    when a code point is not ASCII. *)
Definition str (x : list N) : result string :=
  if forallb (λ c, c <? 128)%N x
  then Return (string_of_list_ascii (List.map ascii_of_N x))
  else Raise ValueError.

(** [s.replace(old, new)] for a one-character [old]. *)
Fixpoint replace (old : ascii) (new : string) (s : string) : string :=
  match s with
  | EmptyString => EmptyString
  | String c s' =>
      if Ascii.eqb c old then new +:+ replace old new s'
      else String c (replace old new s')
  end.

(** [s.split(sep)] for a one-character [sep]: never empty, one more part
    than there are separators. *)
Fixpoint split (sep : ascii) (s : string) : list string :=
  match s with
  | EmptyString => [EmptyString]
  | String c s' =>
      if Ascii.eqb c sep then EmptyString :: split sep s'
      else match split sep s' with
           | [] => [String c EmptyString]
           | part :: parts => String c part :: parts
           end
  end.

(** [c in s] for a one-character [c]. *)
Fixpoint contains_char (c : ascii) (s : string) : bool :=
  match s with
  | EmptyString => false
  | String c' s' => Ascii.eqb c' c || contains_char c s'
  end.

(** [needle in s] *)
Fixpoint contains (needle s : string) : bool :=
  String.prefix needle s ||
  match s with
  | EmptyString => false
  | String _ s' => contains needle s'
  end.

(** Truth value of a string: non-empty. *)
Definition truthy (s : string) : bool :=
  match s with EmptyString => false | _ => true end.

(** [sep.join(parts)] *)
Definition join (sep : string) (parts : list string) : string :=
  String.concat sep parts.

(** [l[i:j]] for [0 <= i <= j]. *)
Definition slice {A : Type} (l : list A) (i j : nat) : list A :=
  take (j - i) (drop i l).

(** [range(start, stop, step)] for a positive [step]. *)
Fixpoint range_from (fuel start stop step : nat) : list nat :=
  match fuel with
  | O => []
  | S fuel' =>
      if start <? stop then start :: range_from fuel' (start + step) stop step
      else []
  end.

Definition range (start stop step : nat) : list nat :=
  range_from stop start stop step.

(** [f.read(n)] on what is left of a file: the text read and the rest. *)
Fixpoint take_chars (n : nat) (s : string) : string :=
  match n, s with
  | S n', String c s' => String c (take_chars n' s')
  | _, _ => EmptyString
  end.

Fixpoint drop_chars (n : nat) (s : string) : string :=
  match n, s with
  | S n', String c s' => drop_chars n' s'
  | _, _ => s
  end.

End Py.

(** ** The parsed page, as bs4 shows it *)

#[warnings="-register-all"]
Inductive node : Type :=
  | NavigableString (s : list N)
  | Tag (name : string) (attrs : list (string * string)) (contents : list node).

(** Every node below [n], in document order. *)
Fixpoint descendants (n : node) : list node :=
  match n with
  | NavigableString _ => []
  | Tag _ _ contents => flat_map (fun c => c :: descendants c) contents
  end.

Definition is_tag (name : string) (n : node) : bool :=
  match n with
  | NavigableString _ => false
  | Tag name' _ _ => String.eqb name' name
  end.

(** [tag.find_all(name)] *)
Definition find_all (name : string) (n : node) : list node :=
  List.filter (is_tag name) (descendants n).

(** [soup.body]: the first [body] tag of the page, [None] without one. *)
Definition body (soup : node) : option node :=
  head (find_all "body" soup).

(** [tag.attrs.get(key)] *)
Definition attrs_get (key : string) (n : node) : option string :=
  match n with
  | NavigableString _ => None
  | Tag _ attrs _ =>
      snd <$> List.find (fun kv => String.eqb (fst kv) key) attrs
  end.

(** [tag.text]: the strings below the tag, concatenated. *)
Fixpoint text (n : node) : list N :=
  match n with
  | NavigableString s => s
  | Tag _ _ contents => concat (List.map text contents)
  end.

(** ** The flag table parser *)

(** One flag of a command: the value dict
    [{'short': .., 'data_type': .., 'description': ..}]. *)
Record FlagRecord : Type := {
  short : string;
  data_type : string;
  description : string
}.

#[global] Instance FlagRecord_eq_dec : EqDecision FlagRecord.
Proof. solve_decision. Defined.

(** The flags of one command, keyed by long name. *)
Abbreviation CommandSignature := (gmap string FlagRecord).

Definition header_marker : string := "Long name (short name)".

(** The normalised text of a cell: [str(td.text.strip()).replace('\n', ' ')]. *)
Definition cell_text (td : node) : result string :=
  stripped ← Py.str (Py.strip (text td));
  Return (Py.replace Py.newline " " stripped).

(** What one cell text adds to [data]. *)
Definition cell_elements (txt : string) : list string :=
  if (length (Py.split "(" txt) =? 2)%nat && negb (Py.contains_char " " txt)
  then List.map (Py.replace ")" "") (Py.split "(" txt)
  else if Py.truthy txt then [txt]
  else [].

(** The body of the loop over [signature_table.find_all('td')]. *)
Definition visit_cell (data : list string) (table_row : node)
  : result (list string) :=
  match attrs_get "colspan" table_row with
  | None =>
      txt ← cell_text table_row;
      Return (data ++ cell_elements txt)
  | Some _ => Return data
  end.

Fixpoint collect_loop (data : list string) (cells : list node)
  : result (list string) :=
  match cells with
  | [] => Return data
  | table_row :: rest =>
      data' ← visit_cell data table_row;
      collect_loop data' rest
  end.

Definition collect_data (cells : list node) : result (list string) :=
  collect_loop [] cells.

(** [[data[x:x + 4] for x in range(0, len(data), 4)]] *)
Definition group_data (data : list string) : list (list string) :=
  List.map (fun x => Py.slice data x (x + 4)) (Py.range 0 (length data) 4).

Section Parser.

(** [unicode(result_set)]: bs4's rendering of a list of tags. *)
Variable unicode_of : list node → string.

Definition is_signature_table (table : node) : bool :=
  Py.contains header_marker (unicode_of (find_all "tr" table)).

Definition _parse_flag_table (soup_code_object : node)
  : result (list (list string)) :=
  page_body ← match body soup_code_object with
               | Some b => Return b
               | None => Raise AttributeError
               end;
  signature_table ←
    match List.filter is_signature_table (find_all "table" page_body) with
    | table :: _ => Return table
    | [] => Raise IndexError
    end;
  data ← collect_data (find_all "td" signature_table);
  Return (group_data data).

End Parser.

(** ** The flag compiler *)

(** [name, short, data_type, description = flag_data] *)
Definition unpack4 (flag_data : list string)
  : result (string * string * string * string) :=
  match flag_data with
  | [name; short; data_type; description] =>
      Return (name, short, data_type, description)
  | _ => Raise ValueError
  end.

Fixpoint compile_loop (flags : CommandSignature)
    (flag_data_set : list (list string)) : result CommandSignature :=
  match flag_data_set with
  | [] => Return flags
  | flag_data :: rest =>
      '(name, short, data_type, description) ← unpack4 flag_data;
      compile_loop
        (<[name := {| short := short; data_type := data_type;
                      description := description |}]> flags)
        rest
  end.

Definition _compile_flag_table (flag_data_set : list (list string))
  : result CommandSignature :=
  compile_loop ∅ flag_data_set.

(** ** The process state *)

(** The memoization cache of [scrape_command]: fetch URL to signature. *)
Abbreviation Cache := (gmap string CommandSignature).

(** What a [Scrape] instance can read and change: the cache file in the
    working directory ([None]: no such file), the files made by [tempfile],
    the cache attached to [scrape_command], the instance's own
    [command_signatures], and the URLs requested from the help site so far. *)
Record world : Type := World {
  cache_file : option string;
  temp_files : list string;
  cache : Cache;
  command_signatures : gmap string CommandSignature;
  requests : list string
}.

Definition set_cache_file (f : option string) (w : world) : world :=
  World f (temp_files w) (cache w) (command_signatures w) (requests w).
Definition set_temp_files (t : list string) (w : world) : world :=
  World (cache_file w) t (cache w) (command_signatures w) (requests w).
Definition set_cache (c : Cache) (w : world) : world :=
  World (cache_file w) (temp_files w) c (command_signatures w) (requests w).
Definition set_command_signatures (cs : gmap string CommandSignature)
    (w : world) : world :=
  World (cache_file w) (temp_files w) (cache w) cs (requests w).
Definition set_requests (r : list string) (w : world) : world :=
  World (cache_file w) (temp_files w) (cache w) (command_signatures w) r.

(** A computation that changes the world and returns or raises. *)
Abbreviation action A := (world → world * result A).

(** [try: c except E: handler], with [E] given by [handles]. *)
Definition try_except {A : Type} (c : result A) (handles : exn → bool)
    (handler : result A) : result A :=
  match c with
  | Return a => Return a
  | Raise e => if handles e then handler else Raise e
  end.

Definition is_exn (e e' : exn) : bool := bool_decide (e = e').

(** [d[key]] *)
Definition getitem {V : Type} (d : gmap string V) (key : string) : result V :=
  match d !! key with
  | Some v => Return v
  | None => Raise KeyError
  end.

(** ** Memoization *)

(** Modelled from the spec: [KeyMemoized] of [commands/cache.py], the
    decorator on [scrape_command], is not among the sources.  The spec's
    contract [get_or_compute(key, compute_fn)]: a key in the in-memory cache
    gives the stored value and [compute_fn] is not invoked; otherwise
    [compute_fn(key)] is invoked, its result stored under [key] and
    returned.  A [compute_fn] that raises stores nothing. *)
Definition KeyMemoized (compute_fn : string → action CommandSignature)
    (key : string) : action CommandSignature := λ w,
  match cache w !! key with
  | Some value => (w, Return value)
  | None =>
      match compute_fn key w with
      | (w', Return value) =>
          (set_cache (<[key := value]> (cache w')) w', Return value)
      | (w', Raise e) => (w', Raise e)
      end
  end.

(** ** The Scrape command *)

Definition BASEURL (MAYAVERSION : string) : string :=
  "http://help.autodesk.com/cloudhelp/" +:+ MAYAVERSION +:+
  "/ENU/Maya-Tech-Docs/CommandsPython/".
Definition _EXTENSION : string := "html".
Definition _URL_BUILDER (BASEURL COMMAND EXT : string) : string :=
  BASEURL +:+ COMMAND +:+ "." +:+ EXT.

Definition _build_url (maya_version command : string) : string :=
  _URL_BUILDER (BASEURL maya_version) command _EXTENSION.

(** [MAYA_CMDS]: one command or a list of them. *)
Inductive commands_arg : Type :=
  | OneCommand (command : string)
  | Commands (commands : list string).

(** *** The file-system steps of a save *)

(** [NamedTemporaryFile(mode='w+t', delete=False)]: a new, empty file. *)
Definition make_temp (w : world) : world :=
  set_temp_files (temp_files w ++ [""]) w.

(** [f.write(text)] and [f.close()] on the file just made. *)
Definition fill_temp (text : string) (w : world) : world :=
  set_temp_files (removelast (temp_files w) ++ [text]) w.

(** [open(dst, 'wb')] in [shutil.copy]: the cache file is created or
    emptied. *)
Definition open_for_writing (w : world) : world :=
  set_cache_file (Some "") w.

(** [fdst.write(buf)] in [shutil.copyfileobj]. *)
Definition write_chunk (buf : string) (w : world) : world :=
  set_cache_file (Some (default "" (cache_file w) +:+ buf)) w.

(** The loop of [shutil.copyfileobj]: [buf = fsrc.read(bufsize)] until the
    read is empty; the chunks written, in order. *)
Fixpoint copy_chunks_from (fuel bufsize : nat) (rest : string)
  : list string :=
  match fuel with
  | O => []
  | S fuel' =>
      let buf := Py.take_chars bufsize rest in
      if Py.truthy buf
      then buf :: copy_chunks_from fuel' bufsize (Py.drop_chars bufsize rest)
      else []
  end.

Definition copy_chunks (bufsize : nat) (src : string) : list string :=
  copy_chunks_from (String.length src) bufsize src.

(** [shutil.copy(src, dst)] on the contents of [src]. *)
Definition shutil_copy_steps (bufsize : nat) (src : string)
  : list (world → world) :=
  open_for_writing :: List.map write_chunk (copy_chunks bufsize src).

(** The buffer of [shutil.copyfileobj]. *)
Definition COPY_BUFSIZE : nat := 16 * 1024.

Definition run_steps (steps : list (world → world)) (w : world) : world :=
  fold_left (λ w step, step w) steps w.

Section Scrape.

(** bs4's rendering of a list of tags. *)
Variable unicode_of : list node → string.

(** [BeautifulSoup(requests.get(url).content, 'html.parser')]: the page the
    site serves for [url] after the given earlier requests, or the
    transport's exception. *)
Variable get_soup : list string → string → result node.

(** [json.load] of a file's text; [Raise ValueError] on malformed text. *)
Variable json_load : string → result Cache.

(** [json.dumps(obj, ensure_ascii, indent, sort_keys)] *)
Variable json_dumps : Cache → bool → nat → bool → string.

Variable maya_version : string.

(** The undecorated body of [scrape_command]. *)
Definition scrape_command_body (maya_command_url : string)
  : action CommandSignature := λ w,
  (set_requests (requests w ++ [maya_command_url]) w,
   soup_data ← get_soup (requests w) maya_command_url;
   raw_flag_table ← _parse_flag_table unicode_of soup_data;
   _compile_flag_table raw_flag_table).

Definition scrape_command : string → action CommandSignature :=
  KeyMemoized scrape_command_body.

(** [open(self._CACHE_FILE, 'w').close()] *)
Definition reset_cache : action () := λ w,
  (set_cache_file (Some "") w, Return ()).

(** [open(self._CACHE_FILE)] for reading. *)
Definition open_cache_file (w : world) : result string :=
  match cache_file w with
  | Some contents => Return contents
  | None => Raise IOError
  end.

Definition _read_tempfile : action () := λ w,
  let loaded :=
    data_file ← open_cache_file w;
    try_except (json_load data_file) (is_exn ValueError) (Return ∅) in
  match loaded with
  | Return data => (set_cache data w, Return ())
  | Raise e => (w, try_except (Raise e) (is_exn IOError) (Return ()))
  end.

Fixpoint store_loop (commands : list string) : action () := λ w,
  match commands with
  | [] => (w, Return ())
  | maya_command :: rest =>
      let url := _build_url maya_version maya_command in
      match scrape_command url w with
      | (w', Return flags) =>
          store_loop rest
            (set_command_signatures
               (<[maya_command := flags]> (command_signatures w')) w')
      | (w', Raise e) => (w', Raise e)
      end
  end.

Definition _store_commands (commands : commands_arg) : action () :=
  match commands with
  | OneCommand command => store_loop [command]
  | Commands commands => store_loop commands
  end.

(** The file-system steps of [_write_tempfile], in order: the temporary
    file is made, then filled with [json.dumps(..)] and closed, then
    [shutil.copy] copies it over the cache file. *)
Definition write_steps (bufsize : nat) (w : world) : list (world → world) :=
  let text := json_dumps (cache w) false 4 true in
  [make_temp; fill_temp text] ++ shutil_copy_steps bufsize text.

(** The world in which a save stops when it is interrupted, or raises,
    after its first [n] steps. *)
Definition interrupted_write (bufsize n : nat) (w : world) : world :=
  run_steps (take n (write_steps bufsize w)) w.

(** [_write_tempfile] on a file system that may fail: [fault] is
    [Some (n, e)] when step [n] of the save raises [e] instead of taking
    place, [None] when every step succeeds. *)
Definition _write_tempfile_on (bufsize : nat) (fault : option (nat * exn))
  : action () := λ w,
  match fault with
  | Some (n, e) =>
      if (n <? length (write_steps bufsize w))%nat
      then (interrupted_write bufsize n w, Raise e)
      else (run_steps (write_steps bufsize w) w, Return ())
  | None => (run_steps (write_steps bufsize w) w, Return ())
  end.

(** [_write_tempfile] when the file system does not fail. *)
Definition _write_tempfile : action () :=
  _write_tempfile_on COPY_BUFSIZE None.

(** The world left by a crash after the first [n] steps of a save. *)
Definition crashed_write (n : nat) (w : world) : world :=
  interrupted_write COPY_BUFSIZE n w.

(** [run], for [MAYA_CMDS = commands], on a file system that may fail
    during the save. *)
Definition run_on (bufsize : nat) (fault : option (nat * exn))
    (commands : commands_arg)
  : action (gmap string CommandSignature) := λ w,
  match _read_tempfile w with
  | (w1, Raise e) => (w1, Raise e)
  | (w1, Return _) =>
      match _store_commands commands w1 with
      | (w2, Raise e) => (w2, Raise e)
      | (w2, Return _) =>
          match _write_tempfile_on bufsize fault w2 with
          | (w3, Raise e) => (w3, Raise e)
          | (w3, Return _) => (w3, Return (command_signatures w3))
          end
      end
  end.

(** [run] when the file system does not fail. *)
Definition run (commands : commands_arg)
  : action (gmap string CommandSignature) :=
  run_on COPY_BUFSIZE None commands.

(** [Scrape(..)]: a new instance has no signatures yet and runs at once. *)
Definition __init__ (commands : commands_arg) : action () := λ w,
  match run commands (set_command_signatures ∅ w) with
  | (w', Return _) => (w', Return ())
  | (w', Raise e) => (w', Raise e)
  end.

End Scrape.

(** ** The stub builder *)

Definition lut : gmap string string :=
  <["boolean" := "bool"]> (<["string" := "str"]> (<["int" := "int"]> ∅)).

Definition stub_tail : string :=
  "):" +:+ String Py.newline (String Py.tab "pass").

Section Stub.

(** [iteritems(d)]: the items of a dict in the order the interpreter
    walks it. *)
Variable iteritems : CommandSignature → list (string * FlagRecord).

Fixpoint stub_loop (shortname combined : bool)
    (items : list (string * FlagRecord)) (kwargs : list string)
  : result (list string) :=
  match items with
  | [] => Return kwargs
  | (k, v) :: rest =>
      let flag := if negb shortname then k else short v in
      let flag := if combined then flag +:+ "(" +:+ short v +:+ ")"
                  else flag in
      TYPE ← getitem lut (data_type v);
      stub_loop shortname combined rest (kwargs ++ [flag +:+ "=" +:+ TYPE])
  end.

Definition build_command_stub (command : string) (shortname combined : bool)
    (w : world) : result string :=
  let shortname := if combined then false else shortname in
  flags ← getitem (command_signatures w) command;
  kwargs ← stub_loop shortname combined (iteritems flags) [];
  let signature := Py.join ", " kwargs in
  Return ("def " +:+ command +:+ "(*args, " +:+ signature +:+ stub_tail).

End Stub.

(** ** The per-cell rule as the specification words it *)

Fixpoint count_char (c : ascii) (s : string) : nat :=
  match s with
  | EmptyString => 0
  | String c' s' => (if Ascii.eqb c' c then 1 else 0) + count_char c s'
  end.

Fixpoint has_whitespace (s : string) : bool :=
  match s with
  | EmptyString => false
  | String c s' => Py.isspace (N_of_ascii c) || has_whitespace s'
  end.

Fixpoint drop_leading (c : ascii) (s : string) : string :=
  match s with
  | EmptyString => EmptyString
  | String c' s' => if Ascii.eqb c' c then drop_leading c s' else s
  end.

Definition drop_trailing (c : ascii) (s : string) : string :=
  String.rev (drop_leading c (String.rev s)).

(** Two parts around the one ['('] and no whitespace at all: the name, and
    the short name without its trailing [')']; otherwise the text itself
    when it is not empty. *)
Definition cell_elements_spec (txt : string) : list string :=
  match Py.split "(" txt with
  | [name; shortname] =>
      if negb (has_whitespace txt) then [name; drop_trailing ")" shortname]
      else if Py.truthy txt then [txt] else []
  | _ => if Py.truthy txt then [txt] else []
  end.

(** ** Notions used in the statements *)

(** A flag row as a 4-tuple (name, short, data_type, description). *)
Definition flag_of (t : string * string * string * string) : FlagRecord :=
  {| short := t.1.1.2; data_type := t.1.2; description := t.2 |}.

Definition name_of (t : string * string * string * string) : string :=
  t.1.1.1.

Definition group_of (t : string * string * string * string) : list string :=
  [t.1.1.1; t.1.1.2; t.1.2; t.2].

(** The dict after the assignments [flags[name] = ..] of the tuples in
    order. *)
Definition assign_all (flags : CommandSignature)
    (tuples : list (string * string * string * string)) : CommandSignature :=
  fold_left (λ m t, <[name_of t := flag_of t]> m) tuples flags.

(** The exception of a page on which no table can be selected. *)
Definition selection_error (soup : node) : exn :=
  match body soup with
  | Some _ => IndexError
  | None => AttributeError
  end.

(** No table of the page's body shows the header marker. *)
Definition no_signature_table (unicode_of : list node → string)
    (soup : node) : Prop :=
  ∀ page_body, body soup = Some page_body →
    Forall (λ t, is_signature_table unicode_of t = false)
      (find_all "table" page_body).

(** The save never leaves the cache file in a state other than the previous
    one or the complete new one, wherever it is interrupted. *)
Definition write_is_atomic (json_dumps : Cache → bool → nat → bool → string)
    (w : world) : Prop :=
  ∀ n,
    cache_file (crashed_write json_dumps n w) = cache_file w ∨
    cache_file (crashed_write json_dumps n w) =
      Some (json_dumps (cache w) false 4 true).

(** The data types the stub builder knows, and the Python type of each. *)
Definition known_types : list string := ["boolean"; "string"; "int"].

Definition python_type (data_type : string) : string :=
  if decide (data_type = "boolean") then "bool"
  else if decide (data_type = "string") then "str"
  else "int".

(** How a flag is shown in a stub. *)
Definition display_name (shortname combined : bool) (k : string)
    (v : FlagRecord) : string :=
  if combined then k +:+ "(" +:+ short v +:+ ")"
  else if shortname then short v
  else k.

Definition kwarg_of (shortname combined : bool) (kv : string * FlagRecord)
  : string :=
  display_name shortname combined kv.1 kv.2 +:+ "=" +:+
  python_type (data_type kv.2).

(** ** Sample pages *)

Module Sample.

Definition quote : string := String "034"%char EmptyString.

Definition render_attr (kv : string * string) : string :=
  " " +:+ fst kv +:+ "=" +:+ quote +:+ snd kv +:+ quote.

(** A plain markup rendering, standing in for bs4's in the closed
    examples. *)
Fixpoint render (n : node) : string :=
  match n with
  | NavigableString s => string_of_list_ascii (List.map ascii_of_N s)
  | Tag name attrs contents =>
      "<" +:+ name +:+ String.concat "" (List.map render_attr attrs) +:+ ">"
      +:+ String.concat "" (List.map render contents)
      +:+ "</" +:+ name +:+ ">"
  end.

Definition unicode_of (tags : list node) : string :=
  "[" +:+ Py.join ", " (List.map render tags) +:+ "]".

Definition td (s : string) : node := Tag "td" [] [NavigableString (Py.u s)].
Definition th (s : string) : node := Tag "th" [] [NavigableString (Py.u s)].
Definition tr (cells : list node) : node := Tag "tr" [] cells.

(** A page with a layout table and the flag table of one flag. *)
Definition flag_table : node :=
  Tag "table" []
    [ tr [th "Long name (short name)"; th "Argument types";
          th "Properties"];
      tr [td "translate(t)"; td "distance"; td "linear distance value"] ].

Definition page : node :=
  Tag "html" []
    [ Tag "head" [] [Tag "title" [] [NavigableString (Py.u "move command")]];
      Tag "body" []
        [ Tag "table" [] [tr [td "Synopsis"]];
          flag_table ] ].

(** A page whose only flag row lacks its description. *)
Definition short_page : node :=
  Tag "html" []
    [ Tag "body" []
        [ Tag "table" []
            [ tr [th "Long name (short name)"];
              tr [td "translate(t)"; td "distance"] ] ] ].

(** A page without a flag table. *)
Definition other_page : node :=
  Tag "html" [] [Tag "body" [] [Tag "table" [] [tr [td "Synopsis"]]]].

(** A page whose flag table stands before the body, and one without a
    body. *)
Definition table_before_body : node :=
  Tag "html" []
    [ flag_table; Tag "body" [] [Tag "table" [] [tr [td "Synopsis"]]] ].

Definition no_body_page : node := Tag "html" [] [flag_table].

(** A flag row with a cell that holds a no-break space only, and one whose
    description has a letter outside ASCII (e with an acute accent). *)
Definition nbsp_cell : node := Tag "td" [] [NavigableString [160%N]].

Definition nbsp_page : node :=
  Tag "html" []
    [ Tag "body" []
        [ Tag "table" []
            [ tr [th "Long name (short name)"];
              tr [td "translate(t)"; td "distance"; nbsp_cell;
                  td "linear distance value"] ] ] ].

Definition accent_cell : node :=
  Tag "td" [] [NavigableString (Py.u "d" ++ [233%N] ++ Py.u "placement")].

Definition accent_page : node :=
  Tag "html" []
    [ Tag "body" []
        [ Tag "table" []
            [ tr [th "Long name (short name)"];
              tr [td "translate(t)"; td "distance"; accent_cell] ] ] ].

(** The rows of one flag as the help pages have them: the name, the
    argument type and the properties icons in one row, the description in
    a table inside a [colspan] cell of the next row. *)
Definition txt (s : string) : node := NavigableString (Py.u s).

Definition help_rows (name shortname type_name descr : string) : list node :=
  [ Tag "tr" [("bgcolor", "#EEEEEE")]
      [ txt (String Py.newline "");
        Tag "td" [("valign", "top")]
          [ Tag "code" []
              [ Tag "b" [] [Tag "a" [("name", "flag" +:+ name)] [txt name]];
                txt "("; Tag "b" [] [txt shortname]; txt ")" ] ];
        txt (String Py.newline "");
        Tag "td" [("valign", "top"); ("width", "24%")]
          [Tag "code" [] [Tag "i" [] [txt type_name]]];
        txt (String Py.newline "");
        Tag "td" [("valign", "top")]
          [ txt (String Py.newline "");
            Tag "img" [("src", "../gfx/create.gif"); ("alt", "create")] [];
            txt (String Py.newline "") ] ];
    Tag "tr" []
      [ Tag "td" [("colspan", "3")]
          [ Tag "table" [("width", "100%")]
              [ Tag "tr" []
                  [ Tag "td" [("width", "5%")] [];
                    Tag "td" [("bgcolor", "#EEEEEE")] [txt descr] ] ] ] ] ].

Definition help_table : node :=
  Tag "table" [("border", "0"); ("width", "800")]
    ([ Tag "tr" []
         [ Tag "th" [("bgcolor", "#CCCCCC")] [txt "Long name (short name)"];
           Tag "th" [("bgcolor", "#CCCCCC")] [Tag "i" [] [txt "Argument types"]];
           Tag "th" [("bgcolor", "#CCCCCC")] [txt "Properties"] ] ]
     ++ help_rows "absolute" "a" "boolean" "Perform an absolute operation."
     ++ help_rows "translate" "t" "distance" "Move the object."). 

Definition help_page : node :=
  Tag "html" []
    [ Tag "head" [] [Tag "title" [] [txt "move command"]];
      Tag "body" []
        [ Tag "table" [] [tr [td "Synopsis"]]; help_table ] ].

(** Stand-ins for [json] in the closed examples, which load and save the
    empty cache only: its text is [{}]; any other text counts as
    malformed here. *)
Definition json_load (s : string) : result Cache :=
  if decide (s = "{}") then Return ∅ else Raise ValueError.

Definition json_dumps (obj : Cache) (ensure_ascii : bool) (indent : nat)
    (sort_keys : bool) : string := "{}".

(** A site that serves the flag page first and another page afterwards. *)
Definition changing_site (history : list string) (url : string)
  : result node :=
  match history with
  | [] => Return page
  | _ => Return other_page
  end.

(** A site that knows the command [move] only. *)
Definition site (history : list string) (url : string) : result node :=
  if decide (url = _build_url "2017" "move") then Return page
  else Return other_page.

(** A process that has done nothing yet, in a directory without a cache
    file. *)
Definition fresh : world := World None [] ∅ ∅ [].

(** The process after a first instance that scraped [move] and then failed
    on a command the site does not know: the cache holds [move], and the
    save was never reached. *)
Definition unsaved : world :=
  (__init__ unicode_of site json_load json_dumps "2017"
     (Commands ["move"; "nosuch"]) fresh).1.

(** A process with an empty cache, beside a cache file saved earlier. *)
Definition saved_before : world :=
  World (Some ("{" +:+ quote +:+ "url" +:+ quote +:+ ": {}}")) [] ∅ ∅ [].

End Sample.


(** ** Queries on an instance *)

Section Queries.

(** [list(d)] and [for k in d]: the keys of a dict in the order the
    interpreter walks it. *)
Variable dict_keys : ∀ V : Type, gmap string V → list string.

(** The property [stored_commands]: [list(self.command_signatures)]. *)
Definition stored_commands (w : world) : list string :=
  dict_keys _ (command_signatures w).

(** The property [cached]: [self.scrape_command.cache]. *)
Definition cached (w : world) : Cache := cache w.

(** The comprehension of [get_command_flags] over the flags walked:
    [self.command_signatures[command][flag]['short']] for each. *)
Fixpoint short_names (command : string) (w : world)
    (flags_walked : list string) : result (list string) :=
  match flags_walked with
  | [] => Return []
  | flag :: rest =>
      flags ← getitem (command_signatures w) command;
      v ← getitem flags flag;
      shorts ← short_names command w rest;
      Return (short v :: shorts)
  end.

Definition get_command_flags (command : string) (w : world)
  : result (list (string * string)) :=
  flags ← getitem (command_signatures w) command;
  let longs := dict_keys _ flags in
  walked ← getitem (command_signatures w) command;
  shorts ← short_names command w (dict_keys _ walked);
  Return (zip longs shorts).

End Queries.

(** ** Further notions used in the statements *)

Definition commands_of (commands : commands_arg) : list string :=
  match commands with
  | OneCommand command => [command]
  | Commands commands => commands
  end.

(** The URLs of a batch that are not cached yet, each once, in the order
    they first occur. *)
Fixpoint new_urls (seen : gset string) (urls : list string) : list string :=
  match urls with
  | [] => []
  | u :: rest =>
      if decide (u ∈ seen) then new_urls seen rest
      else u :: new_urls ({[u]} ∪ seen) rest
  end.

Definition no_colspan (td : node) : bool :=
  bool_decide (attrs_get "colspan" td = None).

(** A long or short flag name as the help pages print it. *)
Definition clean_name (s : string) : Prop :=
  Py.contains_char "(" s = false ∧ Py.contains_char ")" s = false ∧
  Py.contains_char " " s = false.

(** A cell text that is kept as one element. *)
Definition plain_field (s : string) : Prop :=
  s ≠ "" ∧ (count_char "(" s ≠ 1 ∨ Py.contains_char " " s = true).

(** A cell that adds nothing: it carries [colspan], or its text is
    blank. *)
Definition silent (td : node) : Prop :=
  is_Some (attrs_get "colspan" td) ∨ cell_text td = Return "".

(** A cell that is read, with its normalised text. *)
Definition reads (td : node) (txt : string) : Prop :=
  attrs_get "colspan" td = None ∧ cell_text td = Return txt.

(** The cells of one flag as the help pages lay them out: a cell
    [name(short)], a cell with the data type and a cell with the
    description, in this order, among any number of cells that add
    nothing (the properties cell, the [colspan] cell around the
    description, the spacer before it). *)
Definition flag_row (cells : list node)
    (t : string * string * string * string) : Prop :=
  ∃ b0 c1 b1 c2 b2 c3 b3,
    cells = b0 ++ c1 :: b1 ++ c2 :: b2 ++ c3 :: b3 ∧
    Forall silent b0 ∧ Forall silent b1 ∧
    Forall silent b2 ∧ Forall silent b3 ∧
    reads c1 (name_of t +:+ "(" +:+ t.1.1.2 +:+ ")") ∧
    clean_name (name_of t) ∧ clean_name t.1.1.2 ∧
    reads c2 t.1.2 ∧ plain_field t.1.2 ∧
    reads c3 t.2 ∧ plain_field t.2.

(** The parts of a parameter list, written one after the other with a
    comma and a space between two of them. *)
Fixpoint comma_list (parts : list string) : string :=
  match parts with
  | [] => ""
  | [part] => part
  | part :: rest => part +:+ ", " +:+ comma_list rest
  end.

(** A stand-in for [json] that knows one text and the cache it holds. *)
Definition one_text_dumps (text : string) (obj : Cache) (ensure_ascii : bool)
    (indent : nat) (sort_keys : bool) : string := text.

Definition one_text_load (text : string) (held : Cache) (s : string)
  : result Cache :=
  if decide (s = text) then Return held else Raise ValueError.

(** * Properties *)

(** ** Strings *)

Section StringFacts.

Lemma ascii_eqb_true (c : ascii) : Ascii.eqb c c = true.
Proof. apply Ascii.eqb_refl. Qed.

Lemma append_cons (x : ascii) (a b : string) :
  String x a +:+ b = String x (a +:+ b).
Proof. reflexivity. Qed.

Lemma append_assoc (a b c : string) : (a +:+ b) +:+ c = a +:+ b +:+ c.
Proof.
  induction a as [|x a IH]; [done|]. by rewrite !append_cons, IH.
Qed.

Lemma append_empty_r (a : string) : a +:+ "" = a.
Proof. induction a as [|x a IH]; [done|]. by rewrite append_cons, IH. Qed.

Lemma split_nonempty (sep : ascii) (s : string) : Py.split sep s ≠ [].
Proof.
  induction s as [|c s IH]; simpl; [done|].
  destruct (Ascii.eqb c sep); [done|].
  by destruct (Py.split sep s).
Qed.

(** One more part than separators. *)
Lemma split_length (sep : ascii) (s : string) :
  length (Py.split sep s) = S (count_char sep s).
Proof.
  induction s as [|c s IH]; simpl; [done|].
  destruct (Ascii.eqb c sep); simpl; [by rewrite IH|].
  destruct (Py.split sep s) eqn:E; simpl in *; lia.
Qed.

Lemma contains_char_count (c : ascii) (s : string) :
  Py.contains_char c s = false ↔ count_char c s = 0.
Proof.
  induction s as [|c' s IH]; simpl; [done|].
  destruct (Ascii.eqb c' c); simpl; [split; [done|lia]|done].
Qed.

Lemma split_without (sep : ascii) (s : string) :
  Py.contains_char sep s = false → Py.split sep s = [s].
Proof.
  induction s as [|c s IH]; simpl; [done|].
  destruct (Ascii.eqb c sep); simpl; [done|].
  intros H. by rewrite IH.
Qed.

Lemma split_around (sep : ascii) (a b : string) :
  Py.contains_char sep a = false →
  Py.contains_char sep b = false →
  Py.split sep (a +:+ String sep b) = [a; b].
Proof.
  intros Ha Hb. induction a as [|c a IH]; simpl in *.
  - by rewrite ascii_eqb_true, split_without.
  - destruct (Ascii.eqb c sep); simpl in *; [done|].
    by rewrite IH.
Qed.

(** A text with exactly one separator is two parts around it. *)
Lemma count_one_around (sep : ascii) (s : string) :
  count_char sep s = 1 →
  ∃ a b, s = a +:+ String sep b ∧
         Py.contains_char sep a = false ∧ Py.contains_char sep b = false.
Proof.
  induction s as [|c s IH]; simpl; [done|].
  destruct (Ascii.eqb c sep) eqn:E; simpl.
  - intros H. apply Ascii.eqb_eq in E as ->.
    exists EmptyString, s. split_and!; [done..|].
    apply contains_char_count. lia.
  - intros H. destruct (IH H) as (a & b & -> & Ha & Hb).
    exists (String c a), b. simpl. by rewrite E, Ha.
Qed.

Lemma count_char_app (c : ascii) (a b : string) :
  count_char c (a +:+ b) = count_char c a + count_char c b.
Proof. induction a as [|c' a IH]; simpl; [done|]. rewrite IH. lia. Qed.

Lemma replace_without (old : ascii) (new s : string) :
  Py.contains_char old s = false → Py.replace old new s = s.
Proof.
  induction s as [|c s IH]; simpl; [done|].
  destruct (Ascii.eqb c old); simpl; [done|].
  intros H. by rewrite IH.
Qed.

Lemma replace_app (old : ascii) (new a b : string) :
  Py.replace old new (a +:+ b) =
  Py.replace old new a +:+ Py.replace old new b.
Proof.
  induction a as [|c a IH]; simpl; [done|].
  destruct (Ascii.eqb c old); simpl; rewrite IH; [|done].
  by rewrite append_assoc.
Qed.

Lemma contains_char_app (c : ascii) (a b : string) :
  Py.contains_char c (a +:+ b) =
  Py.contains_char c a || Py.contains_char c b.
Proof.
  induction a as [|c' a IH]; simpl; [done|].
  rewrite IH. by destruct (Ascii.eqb c' c).
Qed.

Lemma truthy_nonempty (s : string) : s ≠ EmptyString → Py.truthy s = true.
Proof. by destruct s. Qed.

Lemma replace_removes (old : ascii) (new s : string) :
  Py.contains_char old new = false →
  Py.contains_char old (Py.replace old new s) = false.
Proof.
  intros Hnew. induction s as [|c s IH]; simpl; [done|].
  destruct (Ascii.eqb c old) eqn:E; simpl.
  - by rewrite contains_char_app, Hnew, IH.
  - by rewrite E, IH.
Qed.

Lemma replace_keeps_absent (c old : ascii) (new s : string) :
  Py.contains_char c new = false → Py.contains_char c s = false →
  Py.contains_char c (Py.replace old new s) = false.
Proof.
  intros Hnew. induction s as [|x s IH]; simpl; [done|].
  intros [Hx Hs]%orb_false_elim.
  destruct (Ascii.eqb x old); simpl.
  - by rewrite contains_char_app, Hnew, IH.
  - by rewrite Hx, IH.
Qed.

Lemma split_keeps_absent (c sep : ascii) (s : string) :
  Py.contains_char c s = false →
  Forall (λ part, Py.contains_char c part = false) (Py.split sep s).
Proof.
  induction s as [|x s IH]; simpl; [by repeat constructor|].
  intros [Hx Hs]%orb_false_elim. specialize (IH Hs).
  destruct (Ascii.eqb x sep); [by constructor|].
  destruct (Py.split sep s) as [|part parts].
  { constructor; [|done]. simpl. by rewrite Hx. }
  inversion IH as [|? ? Hp Hps]; subst.
  constructor; [|done]. simpl. by rewrite Hx, Hp.
Qed.

End StringFacts.

(** ** The per-cell rule *)

Lemma cell_elements_compound (txt : string) :
  count_char "(" txt = 1 →
  Py.contains_char " " txt = false →
  ∃ a b, txt = a +:+ "(" +:+ b ∧
         Py.contains_char "(" a = false ∧ Py.contains_char "(" b = false ∧
         cell_elements txt = [Py.replace ")" "" a; Py.replace ")" "" b].
Proof.
  intros Hc Hs. destruct (count_one_around _ _ Hc) as (a & b & -> & Ha & Hb).
  exists a, b. split_and!; [done..|].
  unfold cell_elements. rewrite split_length, Hc, Hs. simpl.
  by rewrite split_around.
Qed.

Lemma cell_elements_plain (txt : string) :
  count_char "(" txt ≠ 1 ∨ Py.contains_char " " txt = true →
  txt ≠ EmptyString →
  cell_elements txt = [txt].
Proof.
  intros H Hne. unfold cell_elements. rewrite split_length.
  rewrite (truthy_nonempty _ Hne).
  destruct H as [H| ->].
  - destruct (Nat.eqb_spec (S (count_char "(" txt)) 2); [lia|done].
  - by rewrite andb_false_r.
Qed.

Lemma cell_elements_name_short (name shortname : string) :
  Py.contains_char "(" name = false → Py.contains_char ")" name = false →
  Py.contains_char " " name = false →
  Py.contains_char "(" shortname = false →
  Py.contains_char ")" shortname = false →
  Py.contains_char " " shortname = false →
  cell_elements (name +:+ "(" +:+ shortname +:+ ")") = [name; shortname].
Proof.
  intros H1 H2 H3 H4 H5 H6. unfold cell_elements.
  assert (Py.contains_char "(" (shortname +:+ ")") = false) as H7
    by (by rewrite contains_char_app, H4).
  change (name +:+ "(" +:+ shortname +:+ ")")
    with (name +:+ String "(" (shortname +:+ ")")).
  rewrite split_around by done. simpl.
  rewrite contains_char_app. simpl. rewrite contains_char_app, H3, H6. simpl.
  rewrite replace_app, !replace_without by done. simpl.
  by rewrite append_empty_r.
Qed.

Section CellText.

Lemma lstrip_spec (x : list N) :
  ∃ l, x = l ++ Py.lstrip x ∧ Forall (λ c, Py.isspace c = true) l ∧
       (∀ c, head (Py.lstrip x) = Some c → Py.isspace c = false).
Proof.
  induction x as [|c x (l & Hx & Hl & Hh)]; simpl.
  - exists []. by split_and!.
  - destruct (Py.isspace c) eqn:E.
    + exists (c :: l). split_and!; [by rewrite Hx at 1|by constructor|done].
    + exists []. split_and!; [done|done|]. by intros c' [= <-].
Qed.

(** Trimming removes whitespace at both ends and nothing else. *)
Lemma strip_spec (x : list N) :
  ∃ l r, x = l ++ Py.strip x ++ r ∧
         Forall (λ c, Py.isspace c = true) l ∧
         Forall (λ c, Py.isspace c = true) r ∧
         (∀ c, last (Py.strip x) = Some c → Py.isspace c = false) ∧
         (∀ c, head (Py.strip x) = Some c → Py.isspace c = false).
Proof.
  destruct (lstrip_spec x) as (l & Hx & Hl & Hh).
  destruct (lstrip_spec (rev (Py.lstrip x))) as (r & Hr & Hrs & Hrh).
  unfold Py.strip, Py.rstrip.
  set (y := Py.lstrip (rev (Py.lstrip x))) in *.
  assert (Py.lstrip x = rev y ++ rev r) as Hy.
  { rewrite <- (rev_involutive (Py.lstrip x)), Hr. apply rev_app_distr. }
  exists l, (rev r). split_and!.
  - by rewrite <- Hy.
  - done.
  - by apply Forall_rev.
  - intros c Hc. apply Hrh. rewrite <- Hc.
    destruct y as [|c' y']; [done|]. simpl. symmetry. apply last_snoc.
  - intros c Hc. apply Hh. rewrite Hy.
    destruct (rev y) as [|c' y']; [done|]. exact Hc.
Qed.

Lemma str_returns (x : list N) (s : string) :
  Py.str x = Return s →
  Forall (λ c, (c < 128)%N) x ∧
  List.map N_of_ascii (list_ascii_of_string s) = x.
Proof.
  unfold Py.str. destruct (forallb _ x) eqn:E; [|done]. intros [= <-].
  rewrite forallb_forall in E.
  assert (Forall (λ c, (c < 128)%N) x) as Hx.
  { apply Forall_forall. intros c Hc.
    by apply N.ltb_lt, E, list_elem_of_In. }
  split; [done|]. rewrite list_ascii_of_string_of_list_ascii.
  rewrite List.map_map. clear E.
  induction Hx as [|c x Hc _ IH]; simpl; [done|].
  rewrite IH. f_equal. apply N_ascii_embedding. lia.
Qed.

Lemma str_raises (x : list N) (e : exn) :
  Py.str x = Raise e →
  e = ValueError ∧ Exists (λ c, (128 ≤ c)%N) x.
Proof.
  unfold Py.str. destruct (forallb _ x) eqn:E; [done|]. intros [= <-].
  split; [done|].
  induction x as [|c x IH]; simpl in E; [done|].
  apply andb_false_iff in E as [E|E].
  - left. by apply N.ltb_ge.
  - right. by apply IH.
Qed.

Lemma cell_text_returns (td : node) (txt : string) :
  cell_text td = Return txt →
  ∃ stripped,
    Py.str (Py.strip (text td)) = Return stripped ∧
    txt = Py.replace Py.newline " " stripped.
Proof.
  unfold cell_text. destruct (Py.str _) as [s|e]; [|done].
  intros [= <-]. by exists s.
Qed.

Lemma cell_text_raises (td : node) (e : exn) :
  cell_text td = Raise e →
  e = ValueError ∧ Exists (λ c, (128 ≤ c)%N) (Py.strip (text td)).
Proof.
  unfold cell_text. destruct (Py.str _) as [s|e'] eqn:E; [done|].
  intros [= <-]. by apply str_raises.
Qed.

(** The cells that carry a [colspan] add nothing. *)
Lemma visit_cell_colspan (data : list string) (td : node) (v : string) :
  attrs_get "colspan" td = Some v → visit_cell data td = Return data.
Proof. intros H. unfold visit_cell. by rewrite H. Qed.

Lemma visit_cell_reads (data : list string) (td : node) (txt : string) :
  attrs_get "colspan" td = None → cell_text td = Return txt →
  visit_cell data td = Return (data ++ cell_elements txt).
Proof. intros H Ht. unfold visit_cell. by rewrite H, Ht. Qed.

Lemma visit_cell_raises (data : list string) (td : node) (e : exn) :
  attrs_get "colspan" td = None → cell_text td = Raise e →
  visit_cell data td = Raise e.
Proof. intros H Ht. unfold visit_cell. by rewrite H, Ht. Qed.

End CellText.

(** C2, amended: what a cell without [colspan] does to [data].  Its text
    is trimmed of Unicode whitespace at both ends.  When a character left
    is not ASCII, [str] raises [UnicodeEncodeError] and so does the loop.
    Otherwise each newline left in the text becomes a space, and: with one
    ['('], which is when the split on ['('] has two parts, and no space
    character in the text, the cell adds the two parts around the ['('],
    each with every [')'] removed; for a text [name(shortname)] these are
    [name] and [shortname].  Otherwise it adds the text itself when it is
    not empty, and nothing when it is. *)
Theorem cell_rule (data : list string) (td : node) :
  attrs_get "colspan" td = None →
  (∃ l r,
     text td = l ++ Py.strip (text td) ++ r ∧
     Forall (λ c, Py.isspace c = true) l ∧
     Forall (λ c, Py.isspace c = true) r ∧
     (∀ c, head (Py.strip (text td)) = Some c → Py.isspace c = false) ∧
     (∀ c, last (Py.strip (text td)) = Some c → Py.isspace c = false)) ∧
  (Exists (λ c, (128 ≤ c)%N) (Py.strip (text td)) →
   visit_cell data td = Raise ValueError) ∧
  (Forall (λ c, (c < 128)%N) (Py.strip (text td)) →
   ∃ txt, cell_text td = Return txt) ∧
  (∀ txt,
     cell_text td = Return txt →
     (∃ s, List.map N_of_ascii (list_ascii_of_string s) =
             Py.strip (text td) ∧
           txt = Py.replace Py.newline " " s) ∧
     Py.contains_char Py.newline txt = false ∧
     length (Py.split "(" txt) = S (count_char "(" txt) ∧
     (count_char "(" txt = 1 →
      Py.contains_char " " txt = false →
      ∃ a b, txt = a +:+ "(" +:+ b ∧
             Py.contains_char "(" a = false ∧
             Py.contains_char "(" b = false ∧
             visit_cell data td =
               Return (data ++ [Py.replace ")" "" a; Py.replace ")" "" b])) ∧
     (∀ name shortname,
        txt = name +:+ "(" +:+ shortname +:+ ")" →
        Py.contains_char "(" name = false →
        Py.contains_char ")" name = false →
        Py.contains_char " " name = false →
        Py.contains_char "(" shortname = false →
        Py.contains_char ")" shortname = false →
        Py.contains_char " " shortname = false →
        visit_cell data td = Return (data ++ [name; shortname])) ∧
     (count_char "(" txt ≠ 1 ∨ Py.contains_char " " txt = true →
      txt ≠ "" →
      visit_cell data td = Return (data ++ [txt])) ∧
     (txt = "" → visit_cell data td = Return data)).
Proof.
  intros Hcol. split_and!.
  - destruct (strip_spec (text td)) as (l & r & Hx & Hl & Hr & Hlast & Hhead).
    by exists l, r.
  - intros Hex. apply visit_cell_raises; [done|].
    destruct (cell_text td) as [txt|e] eqn:E.
    + destruct (cell_text_returns td txt E) as (s & Hs & _).
      apply str_returns in Hs as [Hall _].
      apply Exists_exists in Hex as (c & Hin & Hc).
      rewrite Forall_forall in Hall. specialize (Hall c Hin). lia.
    + by destruct (cell_text_raises td e E) as [-> _].
  - intros Hall. destruct (cell_text td) as [txt|e] eqn:E; [by exists txt|].
    destruct (cell_text_raises td e E) as [_ Hex].
    apply Exists_exists in Hex as (c & Hin & Hc).
    rewrite Forall_forall in Hall. specialize (Hall c Hin). lia.
  - intros txt Htxt. rewrite (visit_cell_reads data td txt Hcol Htxt).
    destruct (cell_text_returns td txt Htxt) as (s & Hs & ->).
    split_and!.
    + exists s. split; [|done]. by apply str_returns.
    + by apply replace_removes.
    + apply split_length.
    + intros Hc Hsp.
      destruct (cell_elements_compound _ Hc Hsp)
        as (a & b & E & Ha & Hb & ->).
      by exists a, b.
    + intros name shortname -> H1 H2 H3 H4 H5 H6.
      by rewrite cell_elements_name_short.
    + intros H Hne. by rewrite cell_elements_plain.
    + intros ->. by rewrite app_nil_r.
Qed.

Lemma cell_rule_witness :
  visit_cell ["move"]
    (Tag "td" []
       [NavigableString (9 :: 160 :: Py.u "translate(t) " ++ [10; 8195])%N]) =
    Return ["move"; "translate"; "t"] ∧
  visit_cell ["move"]
    (Tag "td" []
       [NavigableString (Py.u "linear" ++ [10%N] ++ Py.u "step function")]) =
    Return ["move"; "linear step function"] ∧
  visit_cell ["move"] Sample.nbsp_cell = Return ["move"] ∧
  visit_cell ["move"] Sample.accent_cell = Raise ValueError.
Proof.
  split_and!.
  - destruct (cell_rule ["move"]
                (Tag "td" []
                   [NavigableString
                      (9 :: 160 :: Py.u "translate(t) " ++ [10; 8195])%N])
                eq_refl) as (_ & _ & _ & Hret).
    destruct (Hret "translate(t)" eq_refl) as (_ & _ & _ & _ & H & _).
    apply (H "translate" "t"); reflexivity.
  - destruct (cell_rule ["move"]
                (Tag "td" []
                   [NavigableString
                      (Py.u "linear" ++ [10%N] ++ Py.u "step function")])
                eq_refl) as (_ & _ & _ & Hret).
    destruct (Hret "linear step function" eq_refl)
      as (_ & _ & _ & _ & _ & H & _).
    apply H; [right; reflexivity | discriminate].
  - destruct (cell_rule ["move"] Sample.nbsp_cell eq_refl)
      as (_ & _ & _ & Hret).
    destruct (Hret "" eq_refl) as (_ & _ & _ & _ & _ & _ & H).
    apply H. reflexivity.
  - destruct (cell_rule ["move"] Sample.accent_cell eq_refl)
      as (_ & Hraise & _).
    apply Hraise. apply Exists_exists. exists 233%N.
    split; [|lia]. vm_compute. by right; left.
Defined.

Example visit_accent_cell :
  visit_cell ["move"] Sample.accent_cell = Raise ValueError.
Proof. reflexivity. Qed.

(** The rule as the specification words it differs from the code on a text
    with a [')'] before the ['('], and on a text with a tab in it. *)
Lemma cell_rule_counterexample :
  cell_elements "a)b(c)" = ["ab"; "c"] ∧
  cell_elements_spec "a)b(c)" = ["a)b"; "c"] ∧
  cell_elements ("a" +:+ String Py.tab "b(c)") =
    ["a" +:+ String Py.tab "b"; "c"] ∧
  cell_elements_spec ("a" +:+ String Py.tab "b(c)") =
    ["a" +:+ String Py.tab "b(c)"] ∧
  ¬ (∀ txt, cell_elements txt = cell_elements_spec txt).
Proof.
  split_and!; [reflexivity..|].
  intros H. specialize (H "a)b(c)"). discriminate H.
Qed.

(** The examples of the specification. *)
Example cell_translate :
  cell_elements <$> cell_text (Sample.td "translate(t)") =
  Return ["translate"; "t"].
Proof. reflexivity. Qed.

Example cell_linear_step_function :
  cell_elements <$> cell_text (Sample.td "linear step function") =
  Return ["linear step function"].
Proof. reflexivity. Qed.

(** ** Grouping *)

Section Grouping.

Lemma range_from_shift (fuel a b k step : nat) :
  Py.range_from fuel (a + k) (b + k) step =
  List.map (λ x, x + k) (Py.range_from fuel a b step).
Proof.
  revert a. induction fuel as [|fuel IH]; intros a; simpl; [done|].
  destruct (Nat.ltb_spec (a + k) (b + k)), (Nat.ltb_spec a b); try lia;
    [|done].
  simpl. f_equal. rewrite <- IH. f_equal. lia.
Qed.

(** Enough fuel is as good as more. *)
Lemma range_from_fuel (fuel fuel' a b step : nat) :
  0 < step → b - a ≤ fuel → b - a ≤ fuel' →
  Py.range_from fuel a b step = Py.range_from fuel' a b step.
Proof.
  intros Hstep. revert fuel' a.
  induction fuel as [|fuel IH]; intros fuel' a H1 H2.
  - destruct fuel'; simpl; [done|].
    destruct (Nat.ltb_spec a b); [lia|done].
  - destruct fuel'; simpl; destruct (Nat.ltb_spec a b); try done; try lia.
    f_equal. apply IH; lia.
Qed.

Lemma slice_drop {A : Type} (l : list A) (x k n : nat) :
  Py.slice l (x + k) (x + k + n) = Py.slice (drop k l) x (x + n).
Proof.
  unfold Py.slice. rewrite drop_drop. f_equal; [lia|]. f_equal. lia.
Qed.

Lemma group_data_nil : group_data [] = [].
Proof. reflexivity. Qed.

(** The first group is the first four elements, the rest is the grouping
    of what follows them. *)
Lemma group_data_step (data : list string) :
  data ≠ [] →
  group_data data = take 4 data :: group_data (drop 4 data).
Proof.
  intros Hne. unfold group_data, Py.range.
  destruct data as [|x data]; [done|]. clear Hne.
  set (l := x :: data). assert (length l = S (length data)) as Hl by done.
  rewrite Hl. cbn [Py.range_from].
  destruct (Nat.ltb_spec 0 (S (length data))); [|lia].
  cbn [List.map]. f_equal. rewrite length_drop, Hl.
  destruct (Nat.le_gt_cases 4 (S (length data))) as [Hge|Hlt].
  - rewrite (range_from_fuel _ (S (length data) - 4) 4 _ 4) by lia.
    replace (S (length data)) with (S (length data) - 4 + 4) at 2 by lia.
    rewrite (range_from_shift _ 0 _ 4), List.map_map.
    apply List.map_ext. intros i. apply slice_drop.
  - replace (S (length data) - 4) with 0 by lia.
    destruct (length data) as [|n]; simpl; [done|].
    destruct (Nat.ltb_spec 4 (S (S n))); [lia|done].
Qed.

Lemma group_data_ind (P : list string → Prop) :
  P [] →
  (∀ data, data ≠ [] → P (drop 4 data) → P data) →
  ∀ data, P data.
Proof.
  intros Hnil Hstep data.
  remember (length data) as n eqn:Hn. revert data Hn.
  induction n as [n IH] using lt_wf_ind. intros data Hn.
  destruct data as [|x data]; [done|].
  apply Hstep; [done|].
  apply (IH (length (drop 4 (x :: data)))); [|done].
  rewrite length_drop. simpl in *. lia.
Qed.

Lemma group_data_concat (data : list string) :
  concat (group_data data) = data.
Proof.
  induction data as [|data Hne IH] using group_data_ind; [done|].
  rewrite group_data_step by done. simpl. rewrite IH. apply take_drop.
Qed.

Lemma group_data_length (data : list string) :
  length (group_data data) = (length data + 3) / 4.
Proof.
  induction data as [|data Hne IH] using group_data_ind; [done|].
  rewrite group_data_step by done. cbn [length]. rewrite IH, length_drop.
  assert (0 < length data) by (destruct data; [done|simpl; lia]).
  destruct (Nat.le_gt_cases 4 (length data)) as [Hge|Hlt].
  - replace (length data + 3) with (length data - 4 + 3 + 1 * 4) by lia.
    by rewrite Nat.div_add, Nat.add_1_r by lia.
  - replace (length data - 4) with 0 by lia.
    destruct data as [|a [|b [|c [|d rest]]]]; simpl in *; try done; lia.
Qed.

Lemma group_data_lookup (data : list string) (i : nat) (g : list string) :
  group_data data !! i = Some g →
  g = take 4 (drop (4 * i) data) ∧ 4 * i < length data.
Proof.
  revert i. induction data as [|data Hne IH] using group_data_ind;
    intros i; [done|].
  rewrite group_data_step by done.
  destruct i as [|i]; simpl.
  - intros [= <-]. destruct data; [done|]. simpl. split; [done|lia].
  - intros H. apply IH in H as [-> H]. rewrite length_drop in H.
    rewrite drop_drop. split; [|lia]. do 2 f_equal. lia.
Qed.

End Grouping.

(** ** Table selection *)

Section Selection.

Variable unicode_of : list node → string.

Lemma parse_selected soup page_body table rest :
  body soup = Some page_body →
  List.filter (is_signature_table unicode_of)
    (find_all "table" page_body) = table :: rest →
  _parse_flag_table unicode_of soup =
  (data ← collect_data (find_all "td" table); Return (group_data data)).
Proof.
  intros Hb Ht. unfold _parse_flag_table. rewrite Hb.
  unfold mbind at 1. unfold result_bind at 1. by rewrite Ht.
Qed.

Lemma parse_selected_data soup page_body table rest data :
  body soup = Some page_body →
  List.filter (is_signature_table unicode_of)
    (find_all "table" page_body) = table :: rest →
  collect_data (find_all "td" table) = Return data →
  _parse_flag_table unicode_of soup = Return (group_data data).
Proof.
  intros Hb Ht Hd. rewrite (parse_selected _ _ _ _ Hb Ht). by rewrite Hd.
Qed.

(** [soup.body] is a [body] tag below the root, and the first of them. *)
Lemma body_is_body soup page_body :
  body soup = Some page_body →
  is_tag "body" page_body = true ∧
  ∃ before after,
    descendants soup = before ++ page_body :: after ∧
    Forall (λ n, is_tag "body" n = false) before.
Proof.
  unfold body, find_all.
  induction (descendants soup) as [|n l IH]; simpl; [done|].
  destruct (is_tag "body" n) eqn:E; simpl.
  - intros [= <-]. split; [done|]. by exists [], l.
  - intros H. destruct (IH H) as (Hb & before & after & -> & Hall).
    split; [done|]. exists (n :: before), after. split; [done|].
    by constructor.
Qed.

Lemma body_missing soup :
  body soup = None →
  Forall (λ n, is_tag "body" n = false) (descendants soup).
Proof.
  unfold body, find_all.
  induction (descendants soup) as [|n l IH]; simpl; [by constructor|].
  destruct (is_tag "body" n) eqn:E; simpl; [done|].
  intros H. constructor; [done|]. by apply IH.
Qed.

Lemma parse_no_body soup :
  body soup = None →
  _parse_flag_table unicode_of soup = Raise AttributeError.
Proof. intros Hb. unfold _parse_flag_table. by rewrite Hb. Qed.

Lemma parse_no_table soup page_body :
  body soup = Some page_body →
  List.filter (is_signature_table unicode_of)
    (find_all "table" page_body) = [] →
  _parse_flag_table unicode_of soup = Raise IndexError.
Proof.
  intros Hb Ht. unfold _parse_flag_table. rewrite Hb.
  unfold mbind, result_bind. by rewrite Ht.
Qed.

(** The first element that passes a filter, with what precedes it. *)
Lemma filter_first {A : Type} (p : A → bool) (pre post : list A) (x : A) :
  Forall (λ y, p y = false) pre → p x = true →
  List.filter p (pre ++ x :: post) = x :: List.filter p post.
Proof.
  intros Hpre Hx. induction Hpre as [|y pre Hy _ IH]; simpl.
  - by rewrite Hx.
  - by rewrite Hy.
Qed.

Lemma filter_none {A : Type} (p : A → bool) (l : list A) :
  Forall (λ y, p y = false) l → List.filter p l = [].
Proof.
  intros H. induction H as [|y l Hy _ IH]; simpl; [done|]. by rewrite Hy.
Qed.

End Selection.

(** C4: the groups are the consecutive chunks of four of the flat sequence,
    in order: concatenated they give it back, group [i] starts at element
    [4 * i], every group but the last has four elements and the last has one
    to four.  Eight elements give two groups of four, seven give a group of
    four and a group of three.  Grouping cannot raise: once a table is
    selected the parser returns the groups. *)
Theorem group_data_chunks (data : list string) :
  concat (group_data data) = data ∧
  length (group_data data) = (length data + 3) / 4 ∧
  (∀ i g, group_data data !! i = Some g →
     g = take 4 (drop (4 * i) data) ∧
     1 ≤ length g ≤ 4 ∧
     (S i < length (group_data data) → length g = 4)) ∧
  (∀ a b c d e f g h,
     data = [a; b; c; d; e; f; g; h] →
     group_data data = [[a; b; c; d]; [e; f; g; h]]) ∧
  (∀ a b c d e f g,
     data = [a; b; c; d; e; f; g] →
     group_data data = [[a; b; c; d]; [e; f; g]]) ∧
  (∀ unicode_of soup page_body table rest,
     body soup = Some page_body →
     List.filter (is_signature_table unicode_of)
       (find_all "table" page_body) = table :: rest →
     collect_data (find_all "td" table) = Return data →
     _parse_flag_table unicode_of soup = Return (group_data data)).
Proof.
  split_and!.
  - apply group_data_concat.
  - apply group_data_length.
  - intros i g Hg. pose proof (group_data_lookup _ _ _ Hg) as [-> Hi].
    split_and!; [done| | |].
    + rewrite length_take, length_drop. lia.
    + rewrite length_take. lia.
    + intros Hnext.
      destruct (lookup_lt_is_Some_2 (group_data data) (S i) Hnext) as [g' Hg'].
      apply group_data_lookup in Hg' as [_ Hg'].
      rewrite length_take, length_drop. lia.
  - by intros a b c d e f g h ->.
  - by intros a b c d e f g ->.
  - intros unicode_of soup page_body table rest Hb Ht Hd.
    by eapply parse_selected_data.
Qed.

Lemma group_data_chunks_witness :
  group_data ["tx"; "t"; "distance"; "move in x";
              "ty"; "t"; "distance"] =
    [["tx"; "t"; "distance"; "move in x"]; ["ty"; "t"; "distance"]] ∧
  _parse_flag_table Sample.unicode_of Sample.short_page =
    Return (group_data ["translate"; "t"; "distance"]).
Proof.
  split.
  - destruct (group_data_chunks ["tx"; "t"; "distance"; "move in x";
                        "ty"; "t"; "distance"]) as (_ & _ & _ & _ & H & _).
    by apply H.
  - destruct (group_data_chunks ["translate"; "t"; "distance"])
      as (_ & _ & _ & _ & _ & H).
    eapply (H Sample.unicode_of Sample.short_page); reflexivity.
Defined.

(** ** The flag compiler *)

Section Compiler.

Lemma compile_loop_tuples flags tuples :
  compile_loop flags (List.map group_of tuples) =
  Return (assign_all flags tuples).
Proof.
  revert flags. induction tuples as [|[[[n s] d] ds] tuples IH];
    intros flags; [done|].
  simpl. apply IH.
Qed.

(** The last tuple with a given name decides the entry. *)
Lemma assign_all_lookup flags tuples name :
  assign_all flags tuples !! name =
  match last (List.filter (λ t, bool_decide (name_of t = name)) tuples) with
  | Some t => Some (flag_of t)
  | None => flags !! name
  end.
Proof.
  revert flags. induction tuples as [|t tuples IH]; intros flags; [done|].
  unfold assign_all in *. simpl. rewrite IH.
  destruct (decide (name_of t = name)) as [E|E].
  - rewrite bool_decide_eq_true_2 by done. rewrite last_cons.
    destruct (last _); [done|]. by rewrite E, lookup_insert_eq.
  - rewrite bool_decide_eq_false_2 by done.
    destruct (last _); [done|]. by rewrite lookup_insert_ne.
Qed.

Lemma assign_all_dom flags tuples :
  dom (assign_all flags tuples) =
  dom flags ∪ list_to_set (List.map name_of tuples).
Proof.
  revert flags. induction tuples as [|t tuples IH]; intros flags.
  - simpl. by rewrite (right_id_L ∅ (∪)).
  - unfold assign_all in *. simpl. rewrite IH, dom_insert_L.
    rewrite (comm_L (∪) {[name_of t]} (dom flags)).
    by rewrite <- (assoc_L (∪)).
Qed.

Lemma compile_loop_bad_group flags groups :
  Exists (λ g, length g ≠ 4) groups →
  compile_loop flags groups = Raise ValueError.
Proof.
  intros H. revert flags. induction H as [g groups Hg|g groups H IH];
    intros flags.
  - destruct g as [|a [|b [|c [|d [|e g]]]]]; simpl in *; done.
  - destruct g as [|a [|b [|c [|d [|e g]]]]]; simpl; first [done|apply IH].
Qed.

Lemma group_data_ragged (data : list string) :
  length data mod 4 ≠ 0 →
  Exists (λ g, length g ≠ 4) (group_data data).
Proof.
  induction data as [|data Hne IH] using group_data_ind; [done|].
  intros Hmod. rewrite group_data_step by done.
  destruct (Nat.le_gt_cases 4 (length data)) as [Hge|Hlt].
  - right. apply IH. rewrite length_drop.
    replace (length data) with (length data - 4 + 1 * 4) in Hmod by lia.
    by rewrite Nat.Div0.mod_add in Hmod.
  - left. rewrite length_take. lia.
Qed.

End Compiler.

(** C5: a group that does not have exactly four elements makes the four-way
    unpacking raise [ValueError]; so a page whose selected table yields a
    number of elements that is not a multiple of four makes
    [scrape_command] raise, and no truncated record is produced. *)
Theorem compile_ragged_raises :
  (∀ flag_data_set,
     Exists (λ g, length g ≠ 4) flag_data_set →
     _compile_flag_table flag_data_set = Raise ValueError) ∧
  (∀ unicode_of get_soup url w soup page_body table rest,
     get_soup (requests w) url = Return soup →
     body soup = Some page_body →
     List.filter (is_signature_table unicode_of)
       (find_all "table" page_body) = table :: rest →
     ∀ data,
       collect_data (find_all "td" table) = Return data →
       length data mod 4 ≠ 0 →
       (scrape_command_body unicode_of get_soup url w).2 =
       Raise ValueError).
Proof.
  split.
  - intros groups H. by apply compile_loop_bad_group.
  - intros unicode_of get_soup url w soup page_body table rest Hs Hb Ht
      data Hd Hn.
    unfold scrape_command_body. cbn [snd]. rewrite Hs.
    unfold mbind at 1. unfold result_bind at 1.
    rewrite (parse_selected_data _ _ _ _ _ _ Hb Ht Hd).
    unfold mbind, result_bind.
    apply compile_loop_bad_group. by apply group_data_ragged.
Qed.

Lemma compile_ragged_raises_witness :
  _compile_flag_table [["translate"; "t"; "distance"]] = Raise ValueError ∧
  (scrape_command_body Sample.unicode_of (λ _ _, Return Sample.short_page)
     "http://help/move.html" Sample.fresh).2 = Raise ValueError.
Proof.
  destruct compile_ragged_raises as [H1 H2]. split.
  - apply H1. left. simpl. lia.
  - eapply (H2 Sample.unicode_of (λ _ _, Return Sample.short_page));
      [reflexivity..|]. simpl. lia.
Defined.

(** C6: the compiler maps a sequence of 4-tuples to a dict whose keys are
    the names in the sequence; each name has the short name, data type and
    description of its last tuple, as they stand. *)
Theorem compile_tuples (tuples : list (string * string * string * string)) :
  ∃ flags,
    _compile_flag_table (List.map group_of tuples) = Return flags ∧
    dom flags = list_to_set (List.map name_of tuples) ∧
    ∀ name,
      flags !! name =
      flag_of <$>
        last (List.filter (λ t, bool_decide (name_of t = name)) tuples).
Proof.
  exists (assign_all ∅ tuples). split_and!.
  - apply compile_loop_tuples.
  - by rewrite assign_all_dom, dom_empty_L, (left_id_L ∅ (∪)).
  - intros name. rewrite assign_all_lookup.
    destruct (last _); [done|]. apply lookup_empty.
Qed.

(** The end-to-end example of the specification. *)
Example compile_sample_page :
  (raw ← _parse_flag_table Sample.unicode_of Sample.page;
   _compile_flag_table raw) =
  Return {[ "translate" := {| short := "t"; data_type := "distance";
                              description := "linear distance value" |} ]}.
Proof. reflexivity. Qed.

Example compile_duplicate_name :
  _compile_flag_table
    [["t"; "a"; "int"; "first"]; ["t"; "b"; "string"; "second"]]
  = Return {[ "t" := {| short := "b"; data_type := "string";
                        description := "second" |} ]}.
Proof. reflexivity. Qed.

(** ** Memoization *)

Section Memo.

Variable unicode_of : list node → string.
Variable get_soup : list string → string → result node.

Lemma scrape_command_body_requests url w :
  (scrape_command_body unicode_of get_soup url w).1 =
  set_requests (requests w ++ [url]) w.
Proof. reflexivity. Qed.

Lemma KeyMemoized_hit compute_fn key w value :
  cache w !! key = Some value →
  KeyMemoized compute_fn key w = (w, Return value).
Proof. intros H. unfold KeyMemoized. by rewrite H. Qed.

Lemma KeyMemoized_miss compute_fn key w w' value :
  cache w !! key = None →
  compute_fn key w = (w', Return value) →
  KeyMemoized compute_fn key w =
  (set_cache (<[key := value]> (cache w')) w', Return value).
Proof. intros H Hc. unfold KeyMemoized. by rewrite H, Hc. Qed.

Lemma KeyMemoized_raise compute_fn key w w' e :
  cache w !! key = None →
  compute_fn key w = (w', Raise e) →
  KeyMemoized compute_fn key w = (w', Raise e).
Proof. intros H Hc. unfold KeyMemoized. by rewrite H, Hc. Qed.

End Memo.

(** C1: a key in the cache gives the stored value, whatever the compute
    function is, and leaves the cache and the request log as they are; a
    key not in it makes one request, stores the computed signature under
    the key and returns it.  Two calls in a row on a key that was not
    cached make exactly one request and return the same value, even if the
    site would have answered the second request differently. *)
Theorem memoized_fetch (unicode_of : list node → string)
    (get_soup : list string → string → result node)
    (url : string) (w : world) :
  (∀ value,
     cache w !! url = Some value →
     scrape_command unicode_of get_soup url w = (w, Return value) ∧
     ∀ compute_fn, KeyMemoized compute_fn url w = (w, Return value)) ∧
  (∀ compute_fn w' value,
     cache w !! url = None →
     compute_fn url w = (w', Return value) →
     KeyMemoized compute_fn url w =
     (set_cache (<[url := value]> (cache w')) w', Return value)) ∧
  (∀ value,
     cache w !! url = None →
     (scrape_command_body unicode_of get_soup url w).2 = Return value →
     let w1 := World (cache_file w) (temp_files w) (<[url := value]> (cache w))
                 (command_signatures w) (requests w ++ [url]) in
     scrape_command unicode_of get_soup url w = (w1, Return value) ∧
     scrape_command unicode_of get_soup url w1 = (w1, Return value) ∧
     ∀ maya_version maya_command,
       _build_url maya_version maya_command = url →
       _store_commands unicode_of get_soup maya_version
         (Commands [maya_command; maya_command]) w =
       (set_command_signatures
          (<[maya_command := value]> (command_signatures w)) w1,
        Return ())).
Proof.
  split_and!.
  - intros value H. split; [|intros compute_fn]; by apply KeyMemoized_hit.
  - intros compute_fn w' value H Hc. by apply KeyMemoized_miss.
  - intros value H Hc w1.
    assert (scrape_command unicode_of get_soup url w = (w1, Return value))
      as Hfirst.
    { unfold scrape_command.
      rewrite (KeyMemoized_miss _ url w
                 (set_requests (requests w ++ [url]) w) value H); [done|].
      unfold scrape_command_body in *. cbn [snd] in Hc. by rewrite Hc. }
    assert (∀ cs, scrape_command unicode_of get_soup url
                    (set_command_signatures cs w1) =
                  (set_command_signatures cs w1, Return value)) as Hsecond.
    { intros cs. apply KeyMemoized_hit. simpl. apply lookup_insert_eq. }
    split_and!; [done| |].
    + apply KeyMemoized_hit. simpl. apply lookup_insert_eq.
    + intros maya_version maya_command Hurl.
      unfold _store_commands. cbn [store_loop]. rewrite Hurl, Hfirst.
      rewrite Hsecond. unfold set_command_signatures. simpl.
      by rewrite insert_insert_eq.
Qed.

Lemma memoized_fetch_witness :
  let url := _build_url "2017" "move" in
  let flags : CommandSignature :=
    {[ "translate" := {| short := "t"; data_type := "distance";
                         description := "linear distance value" |} ]} in
  let w1 := World None [] {[ url := flags ]} ∅ [url] in
  scrape_command Sample.unicode_of Sample.changing_site url Sample.fresh =
    (w1, Return flags) ∧
  scrape_command Sample.unicode_of Sample.changing_site url w1 =
    (w1, Return flags).
Proof.
  intros url flags w1.
  destruct (memoized_fetch Sample.unicode_of Sample.changing_site url
              Sample.fresh) as (_ & _ & H).
  destruct (H flags) as (H1 & H2 & _); [reflexivity..|]. by split.
Defined.

(** ** Loading the cache *)

(** C3, amended: a cache file that parses replaces the whole in-memory
    cache by its contents; a cache file with malformed JSON replaces it by
    the empty cache; without a cache file the in-memory cache stays as it
    was.  None of the three raises. *)
Theorem read_tempfile_cache (json_load : string → result Cache) (w : world) :
  (∀ contents data,
     cache_file w = Some contents → json_load contents = Return data →
     _read_tempfile json_load w = (set_cache data w, Return ())) ∧
  (∀ contents,
     cache_file w = Some contents → json_load contents = Raise ValueError →
     _read_tempfile json_load w = (set_cache ∅ w, Return ())) ∧
  (cache_file w = None → _read_tempfile json_load w = (w, Return ())).
Proof.
  unfold _read_tempfile, open_cache_file. split_and!.
  - intros contents data -> H. unfold mbind, result_bind. by rewrite H.
  - intros contents -> H. unfold mbind, result_bind. by rewrite H.
  - by intros ->.
Qed.

Lemma read_tempfile_cache_witness :
  _read_tempfile Sample.json_load
    (set_cache_file (Some "{}") Sample.unsaved) =
    (set_cache ∅ (set_cache_file (Some "{}") Sample.unsaved), Return ()) ∧
  _read_tempfile Sample.json_load
    (set_cache_file (Some "") Sample.unsaved) =
    (set_cache ∅ (set_cache_file (Some "") Sample.unsaved), Return ()) ∧
  _read_tempfile Sample.json_load Sample.unsaved = (Sample.unsaved, Return ()).
Proof.
  split_and!.
  - destruct (read_tempfile_cache Sample.json_load
                (set_cache_file (Some "{}") Sample.unsaved)) as (H & _ & _).
    apply (H "{}"); reflexivity.
  - destruct (read_tempfile_cache Sample.json_load
                (set_cache_file (Some "") Sample.unsaved)) as (_ & H & _).
    apply (H ""); reflexivity.
  - destruct (read_tempfile_cache Sample.json_load Sample.unsaved)
      as (_ & _ & H).
    apply H. reflexivity.
Defined.

(** The world of the counterexample is one the code reaches: the first
    instance fails on its second command and leaves [move] cached. *)
Example unsaved_world :
  __init__ Sample.unicode_of Sample.site Sample.json_load Sample.json_dumps
    "2017" (Commands ["move"; "nosuch"]) Sample.fresh =
  (Sample.unsaved, Raise IndexError) ∧
  cache_file Sample.unsaved = None ∧
  requests Sample.unsaved =
    [_build_url "2017" "move"; _build_url "2017" "nosuch"].
Proof. split_and!; reflexivity. Qed.

(** Without a cache file the load leaves a non-empty in-memory cache as it
    is; it does not empty it. *)
Lemma read_tempfile_counterexample :
  cache_file Sample.unsaved = None ∧
  cache (_read_tempfile Sample.json_load Sample.unsaved).1 =
    {[ _build_url "2017" "move" :=
         {[ "translate" := {| short := "t"; data_type := "distance";
                              description := "linear distance value" |} ]} ]} ∧
  cache (_read_tempfile Sample.json_load Sample.unsaved).1 ≠ ∅.
Proof.
  split_and!; [reflexivity..|].
  intros H.
  apply (f_equal (λ m : Cache, m !! _build_url "2017" "move")) in H.
  by rewrite lookup_empty in H.
Qed.

(** ** Saving the cache *)

Section SaveFacts.

Variable json_dumps : Cache → bool → nat → bool → string.

Lemma take_drop_chars (n : nat) (s : string) :
  Py.take_chars n s +:+ Py.drop_chars n s = s.
Proof.
  revert s. induction n as [|n IH]; intros [|c s]; simpl; try done.
  by rewrite append_cons, IH.
Qed.

Lemma length_take_chars (n : nat) (s : string) :
  String.length (Py.take_chars n s) = n `min` String.length s.
Proof.
  revert s. induction n as [|n IH]; intros [|c s]; simpl; try done.
  by rewrite IH.
Qed.

Lemma length_drop_chars (n : nat) (s : string) :
  String.length (Py.drop_chars n s) = String.length s - n.
Proof.
  revert s. induction n as [|n IH]; intros [|c s]; simpl; try done.
Qed.

Lemma concat_chunks_cons (x : string) (xs : list string) :
  String.concat "" (x :: xs) = x +:+ String.concat "" xs.
Proof. destruct xs; simpl; [by rewrite append_empty_r|done]. Qed.

Lemma truthy_length (s : string) :
  Py.truthy s = true ↔ 0 < String.length s.
Proof. destruct s; simpl; [split; [done|lia]|split; [lia|done]]. Qed.

(** The chunks are what the source file holds, cut in pieces of the size
    of the buffer, the last one possibly shorter. *)
Lemma copy_chunks_from_spec (fuel bufsize : nat) (rest : string) :
  0 < bufsize → String.length rest ≤ fuel →
  String.concat "" (copy_chunks_from fuel bufsize rest) = rest ∧
  Forall (λ chunk, 0 < String.length chunk ≤ bufsize)
    (copy_chunks_from fuel bufsize rest).
Proof.
  intros Hb. revert rest. induction fuel as [|fuel IH]; intros rest Hlen.
  - destruct rest; simpl in *; [by split|lia].
  - cbn [copy_chunks_from].
    destruct (Py.truthy (Py.take_chars bufsize rest)) eqn:E.
    + apply truthy_length in E as Hpos.
      rewrite length_take_chars in Hpos.
      destruct (IH (Py.drop_chars bufsize rest)) as [Hc Hall].
      { rewrite length_drop_chars. lia. }
      split.
      * by rewrite concat_chunks_cons, Hc, take_drop_chars.
      * constructor; [|done]. rewrite length_take_chars. lia.
    + split; [|by constructor].
      destruct rest as [|c rest]; [done|].
      destruct bufsize; [lia|done].
Qed.

Lemma copy_chunks_spec (bufsize : nat) (src : string) :
  0 < bufsize →
  String.concat "" (copy_chunks bufsize src) = src ∧
  Forall (λ chunk, 0 < String.length chunk ≤ bufsize)
    (copy_chunks bufsize src).
Proof. intros Hb. by apply copy_chunks_from_spec. Qed.

Lemma copy_chunks_first (bufsize : nat) (src : string) :
  bufsize < String.length src → 0 < bufsize →
  ∃ later, copy_chunks bufsize src = Py.take_chars bufsize src :: later.
Proof.
  intros Hlen Hb. unfold copy_chunks.
  destruct (String.length src) as [|fuel] eqn:E; [lia|].
  cbn [copy_chunks_from].
  assert (Py.truthy (Py.take_chars bufsize src) = true) as ->.
  { apply truthy_length. rewrite length_take_chars. lia. }
  eauto.
Qed.

(** The chunks written so far are in the cache file, one after the
    other. *)
Lemma run_write_chunks (chunks : list string) (content : string) t c cs r :
  run_steps (List.map write_chunk chunks) (World (Some content) t c cs r) =
  World (Some (content +:+ String.concat "" chunks)) t c cs r.
Proof.
  revert content. induction chunks as [|chunk chunks IH]; intros content.
  - simpl. by rewrite append_empty_r.
  - rewrite concat_chunks_cons, <- append_assoc, <- IH.
    reflexivity.
Qed.

Lemma write_steps_length (bufsize : nat) (w : world) :
  length (write_steps json_dumps bufsize w) =
  3 + length (copy_chunks bufsize (json_dumps (cache w) false 4 true)).
Proof. unfold write_steps, shutil_copy_steps. simpl. by rewrite length_map. Qed.

(** The world after the first [n] steps of a save. *)
Lemma interrupted_write_spec (bufsize n : nat) (w : world) :
  let text := json_dumps (cache w) false 4 true in
  interrupted_write json_dumps bufsize n w =
  match n with
  | 0 => w
  | 1 => make_temp w
  | 2 => set_temp_files (temp_files w ++ [text]) w
  | S (S (S k)) =>
      World (Some (String.concat "" (take k (copy_chunks bufsize text))))
        (temp_files w ++ [text]) (cache w) (command_signatures w)
        (requests w)
  end.
Proof.
  intros text. unfold interrupted_write, write_steps, shutil_copy_steps.
  fold text. destruct n as [|[|[|k]]]; try reflexivity.
  - unfold run_steps. simpl. unfold fill_temp, make_temp. simpl.
    by rewrite removelast_last.
  - cbn [app take]. rewrite <- fmap_take.
    unfold run_steps at 1. cbn [fold_left].
    unfold fill_temp, make_temp, open_for_writing, set_cache_file,
      set_temp_files. simpl. rewrite removelast_last.
    change (fold_left (λ w0 step, step w0) ?l ?w0) with (run_steps l w0).
    by rewrite run_write_chunks.
Qed.

Lemma write_steps_all (bufsize n : nat) (w : world) :
  0 < bufsize → length (write_steps json_dumps bufsize w) ≤ n →
  interrupted_write json_dumps bufsize n w =
  World (Some (json_dumps (cache w) false 4 true))
    (temp_files w ++ [json_dumps (cache w) false 4 true])
    (cache w) (command_signatures w) (requests w).
Proof.
  intros Hb Hn. rewrite write_steps_length in Hn.
  rewrite interrupted_write_spec.
  destruct n as [|[|[|k]]]; try lia.
  rewrite take_ge by lia.
  by destruct (copy_chunks_spec bufsize
                 (json_dumps (cache w) false 4 true) Hb) as [-> _].
Qed.

(** A save that is not disturbed. *)
Lemma write_result_on (bufsize : nat) (w : world) :
  0 < bufsize →
  run_steps (write_steps json_dumps bufsize w) w =
  World (Some (json_dumps (cache w) false 4 true))
    (temp_files w ++ [json_dumps (cache w) false 4 true])
    (cache w) (command_signatures w) (requests w).
Proof.
  intros Hb.
  rewrite <- (write_steps_all bufsize
                (length (write_steps json_dumps bufsize w)) w Hb)
    by done.
  unfold interrupted_write. by rewrite take_ge.
Qed.

Lemma COPY_BUFSIZE_pos : 0 < COPY_BUFSIZE.
Proof. unfold COPY_BUFSIZE. lia. Qed.

Lemma write_result w :
  _write_tempfile json_dumps w =
  (World (Some (json_dumps (cache w) false 4 true))
     (temp_files w ++ [json_dumps (cache w) false 4 true])
     (cache w) (command_signatures w) (requests w), Return ()).
Proof.
  unfold _write_tempfile, _write_tempfile_on.
  by rewrite (write_result_on _ _ COPY_BUFSIZE_pos).
Qed.

End SaveFacts.

(** C8, amended: the save serialises the whole cache with
    [ensure_ascii=False], [indent=4] and [sort_keys=True], writes the text
    to a new temporary file and copies that file over the cache file.  When
    it completes, the cache file holds the text, the temporary file is
    still there and the in-memory state is as before.  The copy is no
    atomic replacement: it empties the cache file and then writes the text
    chunk by chunk.  A save that is interrupted or raises before the copy
    has opened the cache file leaves the previous file; after that it
    leaves an empty file or the chunks written so far, which is a leading
    part of the text. *)
Theorem write_tempfile_saves
    (json_dumps : Cache → bool → nat → bool → string) (bufsize : nat)
    (fault : option (nat * exn)) (w : world) :
  0 < bufsize →
  let text := json_dumps (cache w) false 4 true in
  let chunks := copy_chunks bufsize text in
  let saved := World (Some text) (temp_files w ++ [text]) (cache w)
                 (command_signatures w) (requests w) in
  String.concat "" chunks = text ∧
  Forall (λ chunk, 0 < String.length chunk ≤ bufsize) chunks ∧
  _write_tempfile json_dumps w = (saved, Return ()) ∧
  (fault = None ∨ (∃ n e, fault = Some (n, e) ∧ 3 + length chunks ≤ n) →
   _write_tempfile_on json_dumps bufsize fault w = (saved, Return ())) ∧
  (∀ n e, fault = Some (n, e) → n < 3 + length chunks →
     _write_tempfile_on json_dumps bufsize fault w =
     (interrupted_write json_dumps bufsize n w, Raise e)) ∧
  (∀ n,
     cache (interrupted_write json_dumps bufsize n w) = cache w ∧
     command_signatures (interrupted_write json_dumps bufsize n w) =
       command_signatures w ∧
     requests (interrupted_write json_dumps bufsize n w) = requests w ∧
     (n ≤ 2 →
      cache_file (interrupted_write json_dumps bufsize n w) = cache_file w) ∧
     (3 ≤ n →
      cache_file (interrupted_write json_dumps bufsize n w) =
      Some (String.concat "" (take (n - 3) chunks)))) ∧
  (bufsize < String.length text →
   cache_file (interrupted_write json_dumps bufsize 4 w) =
     Some (Py.take_chars bufsize text) ∧
   String.length (Py.take_chars bufsize text) = bufsize).
Proof.
  intros Hb text chunks saved.
  destruct (copy_chunks_spec bufsize text Hb) as [Hconcat Hsizes].
  split_and!; try done.
  - apply write_result.
  - unfold _write_tempfile_on. rewrite write_steps_length.
    fold text chunks.
    intros [->|(n & e & -> & Hn)].
    + by rewrite write_result_on.
    + destruct (Nat.ltb_spec n (3 + length chunks)); [lia|].
      by rewrite write_result_on.
  - intros n e -> Hn. unfold _write_tempfile_on.
    rewrite write_steps_length. fold text chunks.
    by destruct (Nat.ltb_spec n (3 + length chunks)); [|lia].
  - intros n. rewrite interrupted_write_spec. fold text chunks.
    destruct n as [|[|[|k]]]; simpl; split_and!; try done; try lia.
    intros _. by rewrite Nat.sub_0_r.
  - intros Hlen. rewrite interrupted_write_spec. fold text chunks.
    destruct (copy_chunks_first bufsize text Hlen Hb) as [later Hfirst].
    unfold chunks. rewrite Hfirst. simpl. split; [done|].
    rewrite length_take_chars. lia.
Qed.

Lemma write_tempfile_saves_witness :
  _write_tempfile_on (one_text_dumps "{move}!") 4 (Some (4, IOError))
    Sample.saved_before =
    (set_temp_files ["{move}!"]
       (set_cache_file (Some "{mov") Sample.saved_before), Raise IOError) ∧
  _write_tempfile_on (one_text_dumps "{move}!") 4 (Some (2, IOError))
    Sample.saved_before =
    (set_temp_files ["{move}!"] Sample.saved_before, Raise IOError) ∧
  _write_tempfile_on (one_text_dumps "{move}!") 4 None Sample.saved_before =
    (set_temp_files ["{move}!"]
       (set_cache_file (Some "{move}!") Sample.saved_before), Return ()).
Proof.
  split_and!.
  - destruct (write_tempfile_saves (one_text_dumps "{move}!") 4
                (Some (4, IOError)) Sample.saved_before)
      as (_ & _ & _ & _ & H & _); [lia|].
    rewrite (H 4 IOError); [reflexivity|reflexivity|simpl; lia].
  - destruct (write_tempfile_saves (one_text_dumps "{move}!") 4
                (Some (2, IOError)) Sample.saved_before)
      as (_ & _ & _ & _ & H & _); [lia|].
    rewrite (H 2 IOError); [reflexivity|reflexivity|simpl; lia].
  - destruct (write_tempfile_saves (one_text_dumps "{move}!") 4 None
                Sample.saved_before) as (_ & _ & _ & H & _); [lia|].
    rewrite H; [reflexivity|by left].
Defined.

(** Interrupted after the copy has opened the cache file, the save leaves
    it empty: neither the previous file nor the new one. *)
Lemma write_tempfile_counterexample :
  cache_file (crashed_write Sample.json_dumps 3 Sample.saved_before) =
    Some "" ∧
  ¬ write_is_atomic Sample.json_dumps Sample.saved_before.
Proof.
  split; [reflexivity|].
  intros H. by destruct (H 3) as [H'|H'].
Qed.

(** ** Resetting the cache *)

(** C10: [reset_cache] leaves the cache file empty and nothing else
    changed: not the in-memory cache, not the signatures of the instance. *)
Theorem reset_cache_only_file (w : world) :
  ∃ w',
    reset_cache w = (w', Return ()) ∧
    cache_file w' = Some "" ∧
    cache w' = cache w ∧
    command_signatures w' = command_signatures w ∧
    temp_files w' = temp_files w ∧
    requests w' = requests w.
Proof. by eexists. Qed.

(** After a reset the memoized fetch still answers from memory. *)
Lemma reset_cache_keeps_entries unicode_of get_soup url value w :
  cache w !! url = Some value →
  scrape_command unicode_of get_soup url (reset_cache w).1 =
  ((reset_cache w).1, Return value).
Proof. intros H. by apply KeyMemoized_hit. Qed.

(** The next load after a reset finds the empty file, which is not JSON, and
    starts from an empty in-memory cache. *)
Lemma reset_cache_then_load (json_load : string → result Cache) (w : world) :
  json_load "" = Raise ValueError →
  _read_tempfile json_load (reset_cache w).1 =
  (set_cache ∅ (reset_cache w).1, Return ()).
Proof.
  intros H. unfold _read_tempfile, open_cache_file. simpl.
  unfold mbind, result_bind. by rewrite H.
Qed.

(** ** Failing to select a table *)

Section FailFast.

Variable unicode_of : list node → string.
Variable get_soup : list string → string → result node.
Variable json_load : string → result Cache.
Variable json_dumps : Cache → bool → nat → bool → string.
Variable maya_version : string.

Lemma parse_without_table soup :
  no_signature_table unicode_of soup →
  _parse_flag_table unicode_of soup = Raise (selection_error soup).
Proof.
  intros H. unfold selection_error, no_signature_table in *.
  destruct (body soup) as [page_body|] eqn:Hb.
  - eapply parse_no_table; [done|]. by apply filter_none, H.
  - by apply parse_no_body.
Qed.

(** An exception of the parser passes through the memoizer, which stores
    nothing. *)
Lemma scrape_command_raises url w soup e :
  cache w !! url = None →
  get_soup (requests w) url = Return soup →
  _parse_flag_table unicode_of soup = Raise e →
  scrape_command unicode_of get_soup url w =
  (set_requests (requests w ++ [url]) w, Raise e).
Proof.
  intros Hc Hs Hp. unfold scrape_command.
  apply KeyMemoized_raise; [done|].
  unfold scrape_command_body. rewrite Hs.
  unfold mbind at 1. unfold result_bind at 1. by rewrite Hp.
Qed.

(** ... and through the loop over the commands and through [run], which
    stops before the save. *)
Lemma run_raises command rest w w1 soup e :
  _read_tempfile json_load w = (w1, Return ()) →
  cache w1 !! _build_url maya_version command = None →
  get_soup (requests w1) (_build_url maya_version command) = Return soup →
  _parse_flag_table unicode_of soup = Raise e →
  run unicode_of get_soup json_load json_dumps maya_version
    (Commands (command :: rest)) w =
  (set_requests (requests w1 ++ [_build_url maya_version command]) w1,
   Raise e).
Proof.
  intros Hr Hc Hs Hp. unfold run, run_on. rewrite Hr.
  unfold _store_commands. cbn [store_loop].
  by rewrite (scrape_command_raises _ _ _ _ Hc Hs Hp).
Qed.

End FailFast.

(** C7: the parser looks for tables below the page's [body] tag only,
    takes the first of them whose rendered rows contain the header marker
    and reads the cells of that table alone.  On a page where no table of
    the body matches it raises: [IndexError] from the empty selection,
    [AttributeError] when the page has no body at all.  Nothing catches the
    exception: [scrape_command] stores nothing and [run] stops at that
    command, before the save. *)
Theorem table_selection (unicode_of : list node → string) (soup : node) :
  (∀ page_body,
     body soup = Some page_body →
     is_tag "body" page_body = true ∧
     ∃ before after,
       descendants soup = before ++ page_body :: after ∧
       Forall (λ n, is_tag "body" n = false) before) ∧
  (body soup = None →
   Forall (λ n, is_tag "body" n = false) (descendants soup)) ∧
  (∀ page_body pre table post,
     body soup = Some page_body →
     find_all "table" page_body = pre ++ table :: post →
     Forall (λ t, is_signature_table unicode_of t = false) pre →
     is_signature_table unicode_of table = true →
     _parse_flag_table unicode_of soup =
     (data ← collect_data (find_all "td" table);
      Return (group_data data))) ∧
  (no_signature_table unicode_of soup →
     _parse_flag_table unicode_of soup = Raise (selection_error soup) ∧
     ∀ get_soup json_load json_dumps maya_version command rest w w1,
       _read_tempfile json_load w = (w1, Return ()) →
       cache w1 !! _build_url maya_version command = None →
       get_soup (requests w1) (_build_url maya_version command) =
         Return soup →
       run unicode_of get_soup json_load json_dumps maya_version
         (Commands (command :: rest)) w =
       (set_requests (requests w1 ++ [_build_url maya_version command]) w1,
        Raise (selection_error soup))).
Proof.
  split_and!.
  - intros page_body Hb. by apply body_is_body.
  - apply body_missing.
  - intros page_body pre table post Hb Ht Hpre Hm.
    eapply parse_selected; [done|].
    rewrite Ht. by apply filter_first.
  - intros Hno. split; [by apply parse_without_table|].
    intros get_soup json_load json_dumps maya_version command rest w w1
      Hr Hc Hs.
    eapply run_raises; [done..|]. by apply parse_without_table.
Qed.

Lemma table_selection_witness :
  _parse_flag_table Sample.unicode_of Sample.page =
    Return [["translate"; "t"; "distance"; "linear distance value"]] ∧
  _parse_flag_table Sample.unicode_of Sample.other_page = Raise IndexError ∧
  _parse_flag_table Sample.unicode_of Sample.table_before_body =
    Raise IndexError ∧
  _parse_flag_table Sample.unicode_of Sample.no_body_page =
    Raise AttributeError ∧
  run Sample.unicode_of (λ _ _, Return Sample.other_page) Sample.json_load
    Sample.json_dumps "2017" (Commands ["move"; "scale"]) Sample.fresh =
    (set_requests [_build_url "2017" "move"] Sample.fresh, Raise IndexError).
Proof.
  split_and!.
  - destruct (table_selection Sample.unicode_of Sample.page)
      as (_ & _ & H & _).
    rewrite (H (Tag "body" []
                  [Tag "table" [] [Sample.tr [Sample.td "Synopsis"]];
                   Sample.flag_table])
               [Tag "table" [] [Sample.tr [Sample.td "Synopsis"]]]
               Sample.flag_table []); try reflexivity.
    by repeat constructor.
  - destruct (table_selection Sample.unicode_of Sample.other_page)
      as (_ & _ & _ & H).
    apply H. intros page_body [= <-]. by repeat constructor.
  - destruct (table_selection Sample.unicode_of Sample.table_before_body)
      as (_ & _ & _ & H).
    apply H. intros page_body [= <-]. by repeat constructor.
  - destruct (table_selection Sample.unicode_of Sample.no_body_page)
      as (_ & _ & _ & H).
    apply H. by intros page_body [=].
  - destruct (table_selection Sample.unicode_of Sample.other_page)
      as (_ & _ & _ & H).
    destruct H as [_ H].
    + intros page_body [= <-]. by repeat constructor.
    + by apply (H (λ _ _, Return Sample.other_page) Sample.json_load
                  Sample.json_dumps "2017" "move" ["scale"] Sample.fresh
                  Sample.fresh).
Defined.

(** ** The stub builder *)

Section StubFacts.

Lemma getitem_lut_known (dt : string) :
  dt ∈ known_types → getitem lut dt = Return (python_type dt).
Proof.
  unfold known_types. rewrite !elem_of_cons, elem_of_nil.
  intros [->|[->|[->|?]]]; [reflexivity..|done].
Qed.

Lemma getitem_lut_unknown (dt : string) :
  dt ∉ known_types → getitem lut dt = Raise KeyError.
Proof.
  unfold known_types. rewrite !elem_of_cons, elem_of_nil. intros H.
  unfold getitem, lut.
  rewrite !lookup_insert_ne, lookup_empty by (intros <-; apply H; auto).
  done.
Qed.

Lemma stub_loop_known (shortname combined : bool) items kwargs :
  Forall (λ kv : string * FlagRecord, data_type kv.2 ∈ known_types) items →
  stub_loop (if combined then false else shortname) combined items kwargs =
  Return (kwargs ++ List.map (kwarg_of shortname combined) items).
Proof.
  intros H. revert kwargs.
  induction H as [|[k v] items Hk _ IH]; intros kwargs; simpl in *.
  - by rewrite app_nil_r.
  - rewrite (getitem_lut_known _ Hk).
    unfold mbind, result_bind. rewrite IH, <- app_assoc. simpl.
    do 3 f_equal. unfold kwarg_of, display_name. simpl.
    by destruct combined, shortname.
Qed.

Lemma stub_loop_unknown (shortname combined : bool) items kwargs :
  Exists (λ kv : string * FlagRecord, data_type kv.2 ∉ known_types) items →
  stub_loop shortname combined items kwargs = Raise KeyError.
Proof.
  intros H. revert kwargs.
  induction H as [[k v] items Hk|[k v] items _ IH]; intros kwargs;
    simpl in *.
  - by rewrite (getitem_lut_unknown _ Hk).
  - unfold getitem. destruct (lut !! data_type v); [apply IH|done].
Qed.

(** [', '.join(parts)] puts a comma and a space between the parts and
    nothing after the last one. *)
Lemma join_comma_list (parts : list string) :
  Py.join ", " parts = comma_list parts.
Proof.
  unfold Py.join. induction parts as [|part rest IH]; [done|].
  destruct rest as [|next rest]; [done|].
  change (part +:+ ", " +:+ String.concat ", " (next :: rest) =
          part +:+ ", " +:+ comma_list (next :: rest)).
  by rewrite IH.
Qed.

End StubFacts.

(** C9: for a scraped command whose flags all have a data type of the
    table, the stub is [def <command>], the parameter list made of the
    star-args parameter and one [<flag>=<type>] per flag in the order the
    dict is walked, the parameters separated by a comma and a space, a
    colon and a [pass] body; the type is taken from boolean→bool,
    string→str, int→int.  A single boolean flag [translate] of [move]
    gives the stub of [move] with the parameter [translate=bool]; a boolean
    flag walked before a string flag gives both parameters in that order.
    A flag whose data type is not in the table makes the call raise
    [KeyError].  With [combined] a flag shows as [long(short)] and
    [shortname] makes no difference. *)
Theorem stub_of_command
    (iteritems : CommandSignature → list (string * FlagRecord))
    (command : string) (shortname combined : bool) (w : world) :
  (∀ flags, iteritems flags ≡ₚ map_to_list flags) →
  (∀ flags,
     command_signatures w !! command = Some flags →
     (∀ k v, flags !! k = Some v → data_type v ∈ known_types) →
     build_command_stub iteritems command shortname combined w =
     Return ("def " +:+ command +:+ "(*args, " +:+
             comma_list
               (List.map (kwarg_of shortname combined) (iteritems flags)) +:+
             "):" +:+ String Py.newline (String Py.tab "pass"))) ∧
  (∀ v,
     command_signatures w !! "move" = Some {[ "translate" := v ]} →
     data_type v = "boolean" →
     build_command_stub iteritems "move" false false w =
     Return ("def move(*args, translate=bool):" +:+
             String Py.newline (String Py.tab "pass"))) ∧
  (∀ flags k1 v1 k2 v2,
     command_signatures w !! command = Some flags →
     iteritems flags = [(k1, v1); (k2, v2)] →
     data_type v1 = "boolean" → data_type v2 = "string" →
     build_command_stub iteritems command false false w =
     Return ("def " +:+ command +:+ "(*args, " +:+
             k1 +:+ "=bool, " +:+ k2 +:+ "=str):" +:+
             String Py.newline (String Py.tab "pass")) ∧
     build_command_stub iteritems command true false w =
     Return ("def " +:+ command +:+ "(*args, " +:+
             short v1 +:+ "=bool, " +:+ short v2 +:+ "=str):" +:+
             String Py.newline (String Py.tab "pass"))) ∧
  (∀ flags k v,
     command_signatures w !! command = Some flags →
     flags !! k = Some v → data_type v ∉ known_types →
     build_command_stub iteritems command shortname combined w =
     Raise KeyError) ∧
  (∀ k v,
     kwarg_of shortname true (k, v) =
     (k +:+ "(" +:+ short v +:+ ")") +:+ "=" +:+ python_type (data_type v)) ∧
  build_command_stub iteritems command true true w =
  build_command_stub iteritems command false true w.
Proof.
  intros Hiter.
  assert (∀ flags shortname combined,
    command_signatures w !! command = Some flags →
    (∀ k v, flags !! k = Some v → data_type v ∈ known_types) →
    build_command_stub iteritems command shortname combined w =
    Return ("def " +:+ command +:+ "(*args, " +:+
            comma_list
              (List.map (kwarg_of shortname combined) (iteritems flags)) +:+
            stub_tail)) as Hknown.
  { intros flags s c Hcmd Hall. unfold build_command_stub, getitem.
    rewrite Hcmd. unfold mbind at 1. unfold result_bind at 1.
    rewrite stub_loop_known; [by rewrite <- join_comma_list|].
    apply Forall_forall. intros [k v] Hin. apply (Hall k).
    apply elem_of_map_to_list. by rewrite <- (Hiter flags). }
  split_and!.
  - intros flags. apply Hknown.
  - intros v Hcmd Hv. unfold build_command_stub, getitem.
    rewrite Hcmd. unfold mbind at 1. unfold result_bind at 1.
    assert (iteritems {[ "translate" := v ]} = [("translate", v)]) as ->.
    { apply Permutation_singleton_r.
      by rewrite Hiter, map_to_list_singleton. }
    simpl. by rewrite Hv.
  - intros flags k1 v1 k2 v2 Hcmd Hwalk Hv1 Hv2.
    assert (lut !! "boolean" = Some "bool") as Hbool by reflexivity.
    assert (lut !! "string" = Some "str") as Hstr by reflexivity.
    unfold build_command_stub, getitem. rewrite Hcmd.
    unfold mbind at 1 3. unfold result_bind at 1 3. rewrite Hwalk.
    cbn [stub_loop]. unfold getitem. rewrite Hv1, Hv2, Hbool, Hstr.
    unfold mbind, result_bind, Py.join, stub_tail.
    cbn [app String.concat negb].
    rewrite !append_assoc. by split.
  - intros flags k v Hcmd Hk Hv. unfold build_command_stub, getitem.
    rewrite Hcmd. unfold mbind at 1. unfold result_bind at 1.
    rewrite stub_loop_unknown; [done|].
    apply Exists_exists. exists (k, v). split; [|done].
    rewrite (Hiter flags). by apply elem_of_map_to_list.
  - done.
  - unfold build_command_stub. done.
Qed.

Lemma stub_of_command_witness :
  let flag := {| short := "t"; data_type := "boolean";
                 description := "move by" |} in
  let w := World None [] ∅ {[ "move" := {[ "translate" := flag ]} ]} [] in
  let absolute := {| short := "a"; data_type := "boolean";
                     description := "absolute move" |} in
  let relative := {| short := "r"; data_type := "string";
                     description := "relative to" |} in
  let w2 := World None [] ∅
              {[ "move" := {[ "absolute" := absolute;
                              "relative" := relative ]} ]} [] in
  build_command_stub map_to_list "move" false false w =
    Return ("def move(*args, translate=bool):" +:+
            String Py.newline (String Py.tab "pass")) ∧
  build_command_stub map_to_list "move" true false w =
    Return ("def move(*args, t=bool):" +:+
            String Py.newline (String Py.tab "pass")) ∧
  build_command_stub map_to_list "move" true true w =
    Return ("def move(*args, translate(t)=bool):" +:+
            String Py.newline (String Py.tab "pass")) ∧
  build_command_stub map_to_list "move" false false
    (set_command_signatures
       {[ "move" := {[ "translate" :=
                         {| short := "t"; data_type := "distance";
                            description := "move by" |} ]} ]} w) =
    Raise KeyError ∧
  build_command_stub map_to_list "move" false false w2 =
    Return ("def move(*args, absolute=bool, relative=str):" +:+
            String Py.newline (String Py.tab "pass")) ∧
  build_command_stub map_to_list "move" true false w2 =
    Return ("def move(*args, a=bool, r=str):" +:+
            String Py.newline (String Py.tab "pass")) ∧
  build_command_stub map_to_list "move" true true w2 =
    Return ("def move(*args, absolute(a)=bool, relative(r)=str):" +:+
            String Py.newline (String Py.tab "pass")).
Proof.
  intros flag w absolute relative w2.
  assert (∀ k v,
    ({[ "absolute" := absolute; "relative" := relative ]}
       : CommandSignature) !! k = Some v →
    data_type v ∈ known_types) as Hknown.
  { intros k v.
    destruct (decide (k = "absolute")) as [->|Ha].
    - rewrite lookup_insert_eq. intros [= <-]. by repeat constructor.
    - rewrite lookup_insert_ne by done.
      intros [<- <-]%lookup_singleton_Some. by repeat constructor. }
  split_and!.
  - destruct (stub_of_command map_to_list "move" false false w) as (_ & H & _);
      [done|].
    by apply (H flag).
  - destruct (stub_of_command map_to_list "move" true false w) as (H & _);
      [done|].
    rewrite (H {[ "translate" := flag ]}); [done|done|].
    intros k v [<- <-]%lookup_singleton_Some. by repeat constructor.
  - destruct (stub_of_command map_to_list "move" true true w) as (H & _);
      [done|].
    rewrite (H {[ "translate" := flag ]}); [done|done|].
    intros k v [<- <-]%lookup_singleton_Some. by repeat constructor.
  - eapply stub_of_command; [done|reflexivity|..].
    + by apply lookup_singleton_eq.
    + simpl. unfold known_types. rewrite !elem_of_cons, elem_of_nil.
      by intros [|[|[|]]].
  - destruct (stub_of_command map_to_list "move" false false w2)
      as (_ & _ & H & _); [done|].
    by destruct (H {[ "absolute" := absolute; "relative" := relative ]}
                   "absolute" absolute "relative" relative
                   eq_refl eq_refl eq_refl eq_refl) as [H1 _].
  - destruct (stub_of_command map_to_list "move" false false w2)
      as (_ & _ & H & _); [done|].
    by destruct (H {[ "absolute" := absolute; "relative" := relative ]}
                   "absolute" absolute "relative" relative
                   eq_refl eq_refl eq_refl eq_refl) as [_ H2].
  - destruct (stub_of_command map_to_list "move" true true w2) as (H & _);
      [done|].
    by rewrite (H {[ "absolute" := absolute; "relative" := relative ]}
                  eq_refl Hknown).
Defined.


(** * Further properties of the module *)

(** ** URLs *)

Section UrlFacts.

Lemma list_ascii_app (a b : string) :
  list_ascii_of_string (a +:+ b) =
  list_ascii_of_string a ++ list_ascii_of_string b.
Proof.
  induction a as [|x a IH]; [done|]. rewrite append_cons. simpl. by f_equal.
Qed.

Lemma list_ascii_inj (a b : string) :
  list_ascii_of_string a = list_ascii_of_string b → a = b.
Proof.
  intros H. rewrite <- (string_of_list_ascii_of_string a).
  rewrite <- (string_of_list_ascii_of_string b). by rewrite H.
Qed.

Lemma append_inv_head (p a b : string) : p +:+ a = p +:+ b → a = b.
Proof.
  intros H. apply list_ascii_inj.
  apply (f_equal list_ascii_of_string) in H. rewrite !list_ascii_app in H.
  by apply app_inv_head in H.
Qed.

Lemma append_inv_tail (a b q : string) : a +:+ q = b +:+ q → a = b.
Proof.
  intros H. apply list_ascii_inj.
  apply (f_equal list_ascii_of_string) in H. rewrite !list_ascii_app in H.
  by apply app_inv_tail in H.
Qed.

End UrlFacts.

(** X1: for one version, different commands have different URLs, so they
    never share a cache entry; for one command, different versions have
    different URLs. *)
Theorem build_url_distinct (v1 v2 c1 c2 : string) :
  (c1 ≠ c2 → _build_url v1 c1 ≠ _build_url v1 c2) ∧
  (v1 ≠ v2 → _build_url v1 c1 ≠ _build_url v2 c1).
Proof.
  unfold _build_url, _URL_BUILDER, BASEURL. split; intros Hne H; apply Hne.
  - apply append_inv_head in H. by apply append_inv_tail in H.
  - rewrite <- !append_assoc in H. apply append_inv_tail in H.
    rewrite !append_assoc in H. apply append_inv_head in H.
    by apply append_inv_tail in H.
Qed.

Lemma build_url_distinct_witness :
  _build_url "2017" "move" ≠ _build_url "2017" "scale" ∧
  _build_url "2017" "move" ≠ _build_url "2018" "move".
Proof.
  split.
  - by apply (build_url_distinct "2017" "2018" "move" "scale").
  - by apply (build_url_distinct "2017" "2018" "move" "scale").
Defined.

Example build_url_move :
  _build_url "2017" "move" =
  "http://help.autodesk.com/cloudhelp/2017/ENU/Maya-Tech-Docs/CommandsPython/move.html".
Proof. reflexivity. Qed.

(** ** What the cells contribute *)

Section CellFacts.

Lemma cell_text_one_line (td : node) (txt : string) :
  cell_text td = Return txt → Py.contains_char Py.newline txt = false.
Proof.
  intros (s & _ & ->)%cell_text_returns. by apply replace_removes.
Qed.

Lemma cell_elements_keep_absent (c : ascii) (txt : string) :
  Py.contains_char c txt = false →
  Forall (λ e, Py.contains_char c e = false) (cell_elements txt).
Proof.
  intros H. unfold cell_elements.
  destruct (_ && _).
  - apply Forall_forall. intros e He.
    apply list_elem_of_In, in_map_iff in He as [part [<- Hin]].
    apply replace_keeps_absent; [done|].
    pose proof (split_keeps_absent c "(" txt H) as Hall.
    rewrite Forall_forall in Hall. by apply Hall, list_elem_of_In.
  - destruct (Py.truthy txt); by repeat constructor.
Qed.

Lemma cell_elements_at_most_two (txt : string) :
  length (cell_elements txt) ≤ 2.
Proof.
  unfold cell_elements.
  destruct (Nat.eqb_spec (length (Py.split "(" txt)) 2) as [E|E]; simpl.
  - destruct (negb _); [by rewrite length_map, E|].
    destruct (Py.truthy _); simpl; lia.
  - destruct (Py.truthy _); simpl; lia.
Qed.

(** The loop returns when the text of every cell without [colspan] is
    accepted, with what these texts add, in order. *)
Lemma collect_loop_returns (cells : list node) (txts : list string) data :
  Forall2 (λ td txt, cell_text td = Return txt)
    (List.filter no_colspan cells) txts →
  collect_loop data cells =
  Return (data ++ concat (List.map cell_elements txts)).
Proof.
  revert data txts. induction cells as [|td cells IH]; intros data txts.
  - simpl. intros ->%Forall2_nil_inv_l. simpl. by rewrite app_nil_r.
  - cbn [collect_loop List.filter]. unfold visit_cell, no_colspan.
    destruct (attrs_get "colspan" td) as [v|]; simpl.
    + apply IH.
    + intros H. apply Forall2_cons_inv_l in H as (txt & txts' & Ht & H & ->).
      rewrite Ht. unfold mbind, result_bind.
      rewrite (IH _ _ H). simpl. by rewrite <- app_assoc.
Qed.

Lemma collect_loop_inv (cells : list node) data data' :
  collect_loop data cells = Return data' →
  ∃ txts,
    Forall2 (λ td txt, cell_text td = Return txt)
      (List.filter no_colspan cells) txts ∧
    data' = data ++ concat (List.map cell_elements txts).
Proof.
  revert data. induction cells as [|td cells IH]; intros data.
  - simpl. intros [= <-]. exists []. split; [constructor|].
    simpl. by rewrite app_nil_r.
  - cbn [collect_loop List.filter]. unfold visit_cell, no_colspan.
    destruct (attrs_get "colspan" td) as [v|]; simpl.
    + apply IH.
    + destruct (cell_text td) as [txt|e] eqn:Ht; [|done].
      unfold mbind, result_bind. intros H.
      apply IH in H as (txts & Hall & ->).
      exists (txt :: txts). split; [by constructor|].
      simpl. by rewrite <- app_assoc.
Qed.

Lemma collect_loop_raises (cells : list node) data e :
  collect_loop data cells = Raise e ↔
  e = ValueError ∧
  Exists (λ td, Exists (λ c, (128 ≤ c)%N) (Py.strip (text td)))
    (List.filter no_colspan cells).
Proof.
  revert data. induction cells as [|td cells IH]; intros data.
  - simpl. split; [done|]. by intros [_ ?%Exists_nil].
  - cbn [collect_loop List.filter]. unfold visit_cell, no_colspan.
    destruct (attrs_get "colspan" td) as [v|]; simpl; [apply IH|].
    destruct (cell_text td) as [txt|e'] eqn:Ht.
    + unfold mbind, result_bind. rewrite IH, Exists_cons.
      split; [intros [-> H]; by split; [|right]|].
      intros [-> [H|H]]; [|done]. exfalso.
      destruct (cell_text_returns td txt Ht) as (s & Hs & _).
      apply str_returns in Hs as [Hall _].
      apply Exists_exists in H as (c & Hin & Hc).
      rewrite Forall_forall in Hall. specialize (Hall c Hin). lia.
    + destruct (cell_text_raises td e' Ht) as [-> Hex].
      unfold mbind, result_bind. split.
      * intros [= <-]. split; [done|]. by left.
      * by intros [-> _].
Qed.

End CellFacts.

(** X2: the loop over the cells returns exactly when [str] accepts the
    trimmed text of every cell without [colspan], and then the data is the
    concatenation, in document order, of what these texts add; cells with
    [colspan] add nothing wherever they stand.  No element read contains a
    line break, and a cell adds at most two elements.  Otherwise the loop
    raises the [UnicodeEncodeError] of the first text that is not ASCII. *)
Theorem collect_data_elements (cells : list node) :
  (∀ data,
     collect_data cells = Return data ↔
     ∃ txts,
       Forall2 (λ td txt, cell_text td = Return txt)
         (List.filter no_colspan cells) txts ∧
       data = concat (List.map cell_elements txts)) ∧
  (∀ data,
     collect_data cells = Return data →
     Forall (λ e, Py.contains_char Py.newline e = false) data ∧
     length data ≤ 2 * length (List.filter no_colspan cells)) ∧
  (∀ e,
     collect_data cells = Raise e ↔
     e = ValueError ∧
     Exists (λ td, Exists (λ c, (128 ≤ c)%N) (Py.strip (text td)))
       (List.filter no_colspan cells)).
Proof.
  unfold collect_data. split_and!.
  - intros data. split.
    + intros (txts & Hall & ->)%collect_loop_inv. by exists txts.
    + intros (txts & Hall & ->). by rewrite (collect_loop_returns _ _ _ Hall).
  - intros data (txts & Hall & ->)%collect_loop_inv. simpl.
    induction Hall as [|td txt l txts Ht _ [IH1 IH2]]; simpl.
    + split; [constructor|lia].
    + split.
      * apply Forall_app. split; [|done].
        by apply cell_elements_keep_absent, (cell_text_one_line td).
      * rewrite length_app.
        pose proof (cell_elements_at_most_two txt). lia.
  - intros e. apply collect_loop_raises.
Qed.

Lemma collect_data_elements_witness :
  collect_data (find_all "td" Sample.nbsp_page) =
    Return ["translate"; "t"; "distance"; "linear distance value"] ∧
  collect_data (find_all "td" Sample.accent_page) = Raise ValueError.
Proof.
  split.
  - destruct (collect_data_elements (find_all "td" Sample.nbsp_page))
      as (H & _).
    apply H.
    exists ["translate(t)"; "distance"; ""; "linear distance value"].
    split; [|reflexivity]. by repeat constructor.
  - destruct (collect_data_elements (find_all "td" Sample.accent_page))
      as (_ & _ & H).
    apply H. split; [done|]. simpl.
    do 2 right. left. simpl. apply Exists_exists. exists 233%N.
    split; [|lia]. by do 1 right; left.
Defined.

(** ** Pages of the expected layout *)

Section LayoutFacts.

Lemma collect_loop_app (a b : list node) data :
  collect_loop data (a ++ b) =
  (data' ← collect_loop data a; collect_loop data' b).
Proof.
  revert data. induction a as [|td a IH]; intros data; [done|].
  cbn [app collect_loop].
  destruct (visit_cell data td) as [d|e]; [|done].
  unfold mbind at 1 3. unfold result_bind at 1 3. apply IH.
Qed.

Lemma collect_loop_silent (b : list node) data :
  Forall silent b → collect_loop data b = Return data.
Proof.
  induction 1 as [|td b Hs _ IH]; [done|].
  cbn [collect_loop]. unfold visit_cell.
  destruct Hs as [[v Hv]|Ht].
  - by rewrite Hv.
  - destruct (attrs_get "colspan" td); [done|].
    rewrite Ht. unfold mbind, result_bind. simpl.
    by rewrite app_nil_r.
Qed.

Lemma collect_loop_reads (td : node) (txt : string) rest data :
  reads td txt →
  collect_loop data (td :: rest) =
  collect_loop (data ++ cell_elements txt) rest.
Proof.
  intros [Hcol Ht]. cbn [collect_loop].
  by rewrite (visit_cell_reads _ _ _ Hcol Ht).
Qed.

Lemma flag_row_elements cells t data :
  flag_row cells t →
  collect_loop data cells = Return (data ++ group_of t).
Proof.
  intros (b0 & c1 & b1 & c2 & b2 & c3 & b3 & -> & H0 & H1 & H2 & H3
          & R1 & (N1 & N2 & N3) & (S1 & S2 & S3) & R2 & P2 & R3 & P3).
  rewrite collect_loop_app, (collect_loop_silent _ _ H0).
  unfold mbind at 1. unfold result_bind at 1.
  rewrite (collect_loop_reads _ _ _ _ R1).
  rewrite collect_loop_app, (collect_loop_silent _ _ H1).
  unfold mbind at 1. unfold result_bind at 1.
  rewrite (collect_loop_reads _ _ _ _ R2).
  rewrite collect_loop_app, (collect_loop_silent _ _ H2).
  unfold mbind at 1. unfold result_bind at 1.
  rewrite (collect_loop_reads _ _ _ _ R3).
  rewrite (collect_loop_silent _ _ H3).
  rewrite cell_elements_name_short by done.
  destruct P2 as [P2 Q2], P3 as [P3 Q3].
  rewrite !cell_elements_plain by done.
  by rewrite <- !app_assoc.
Qed.

Lemma flag_rows_elements rows tuples data :
  Forall2 flag_row rows tuples →
  collect_loop data (concat rows) =
  Return (data ++ concat (List.map group_of tuples)).
Proof.
  intros H. revert data.
  induction H as [|cells t rows tuples Hrow _ IH]; intros data.
  - simpl. by rewrite app_nil_r.
  - cbn [concat List.map]. rewrite collect_loop_app.
    rewrite (flag_row_elements _ _ _ Hrow).
    unfold mbind, result_bind. rewrite IH. by rewrite <- app_assoc.
Qed.

Lemma group_data_tuples tuples :
  group_data (concat (List.map group_of tuples)) = List.map group_of tuples.
Proof.
  induction tuples as [|[[[n sh] d] ds] tuples IH]; [done|].
  change (concat (List.map group_of ((n, sh, d, ds) :: tuples)))
    with (n :: sh :: d :: ds :: concat (List.map group_of tuples)).
  rewrite group_data_step by done.
  change (take 4 (n :: sh :: d :: ds :: concat (List.map group_of tuples)))
    with [n; sh; d; ds].
  change (drop 4 (n :: sh :: d :: ds :: concat (List.map group_of tuples)))
    with (concat (List.map group_of tuples)).
  by rewrite IH.
Qed.

Lemma group_data_full (data : list string) :
  length data mod 4 = 0 →
  Forall (λ g, length g = 4) (group_data data).
Proof.
  induction data as [|data Hne IH] using group_data_ind; [by constructor|].
  intros Hmod. rewrite group_data_step by done.
  assert (4 ≤ length data) as Hge.
  { destruct data as [|a [|b [|c [|d data]]]]; simpl in *; try done; lia. }
  constructor.
  - rewrite length_take. lia.
  - apply IH. rewrite length_drop.
    replace (length data) with (length data - 4 + 1 * 4) in Hmod by lia.
    by rewrite Nat.Div0.mod_add in Hmod.
Qed.

Lemma groups_of_four (groups : list (list string)) :
  Forall (λ g, length g = 4) groups →
  ∃ tuples, groups = List.map group_of tuples ∧
            length tuples = length groups.
Proof.
  induction 1 as [|g groups Hg _ (tuples & -> & Hlen)].
  - by exists [].
  - destruct g as [|a [|b [|c [|d [|e g]]]]]; try done.
    exists ((a, b, c, d) :: tuples). simpl. by rewrite Hlen.
Qed.

Lemma assign_all_size flags tuples :
  size (assign_all flags tuples) ≤ size flags + length tuples.
Proof.
  revert flags. induction tuples as [|t tuples IH]; intros flags; simpl.
  - unfold assign_all. simpl. lia.
  - unfold assign_all in *. simpl. etrans; [apply IH|].
    rewrite map_size_insert.
    destruct (flags !! name_of t); simpl; unfold id; lia.
Qed.

Lemma scrape_command_body_selected unicode_of get_soup url w soup
    page_body table rest :
  get_soup (requests w) url = Return soup →
  body soup = Some page_body →
  List.filter (is_signature_table unicode_of)
    (find_all "table" page_body) = table :: rest →
  (scrape_command_body unicode_of get_soup url w).2 =
  (data ← collect_data (find_all "td" table);
   _compile_flag_table (group_data data)).
Proof.
  intros Hs Hb Ht. unfold scrape_command_body. cbn [snd]. rewrite Hs.
  unfold mbind at 1. unfold result_bind at 1.
  rewrite (parse_selected _ _ _ _ _ Hb Ht).
  by destruct (collect_data (find_all "td" table)).
Qed.

End LayoutFacts.

(** X3: on a page laid out as the help pages are, where the cells of the
    selected table are, flag after flag, a cell [name(short)], a cell with
    the data type and a cell with the description among cells that add
    nothing (cells with [colspan], cells whose text is blank), the parser
    returns exactly one group per flag and [scrape_command] returns the
    flags: every name with the fields of its last row. *)
Theorem scrape_flag_rows (unicode_of : list node → string)
    (get_soup : list string → string → result node) (url : string)
    (w : world) (soup page_body table : node) (rest : list node)
    (rows : list (list node))
    (tuples : list (string * string * string * string)) :
  get_soup (requests w) url = Return soup →
  body soup = Some page_body →
  List.filter (is_signature_table unicode_of)
    (find_all "table" page_body) = table :: rest →
  find_all "td" table = concat rows →
  Forall2 flag_row rows tuples →
  _parse_flag_table unicode_of soup = Return (List.map group_of tuples) ∧
  ∃ flags,
    (scrape_command_body unicode_of get_soup url w).2 = Return flags ∧
    dom flags = list_to_set (List.map name_of tuples) ∧
    ∀ name,
      flags !! name =
      flag_of <$>
        last (List.filter (λ t, bool_decide (name_of t = name)) tuples).
Proof.
  intros Hs Hb Ht Hcells Hrows.
  assert (collect_data (find_all "td" table) =
          Return (concat (List.map group_of tuples))) as Hdata.
  { unfold collect_data. rewrite Hcells.
    by rewrite (flag_rows_elements _ _ _ Hrows). }
  split.
  - rewrite (parse_selected_data _ _ _ _ _ _ Hb Ht Hdata).
    by rewrite group_data_tuples.
  - exists (assign_all ∅ tuples). split_and!.
    + rewrite (scrape_command_body_selected _ _ _ _ _ _ _ _ Hs Hb Ht).
      rewrite Hdata. unfold mbind, result_bind.
      rewrite group_data_tuples. apply compile_loop_tuples.
    + by rewrite assign_all_dom, dom_empty_L, (left_id_L ∅ (∪)).
    + intros name. rewrite assign_all_lookup.
      destruct (last _); [done|]. apply lookup_empty.
Qed.

Lemma scrape_flag_rows_witness :
  _parse_flag_table Sample.unicode_of Sample.help_page =
    Return [["absolute"; "a"; "boolean"; "Perform an absolute operation."];
            ["translate"; "t"; "distance"; "Move the object."]] ∧
  ∃ flags,
    (scrape_command_body Sample.unicode_of (λ _ _, Return Sample.help_page)
       "http://help/move.html" Sample.fresh).2 = Return flags ∧
    dom flags = {[ "absolute"; "translate" ]}.
Proof.
  set (cells := find_all "td" Sample.help_table).
  set (d := Sample.td "").
  assert (∀ l t,
    l = [nth 0 l d; nth 1 l d; nth 2 l d; nth 3 l d; nth 4 l d; nth 5 l d] →
    reads (nth 0 l d) (name_of t +:+ "(" +:+ t.1.1.2 +:+ ")") →
    clean_name (name_of t) → clean_name t.1.1.2 →
    reads (nth 1 l d) t.1.2 → plain_field t.1.2 →
    silent (nth 2 l d) → silent (nth 3 l d) → silent (nth 4 l d) →
    reads (nth 5 l d) t.2 → plain_field t.2 →
    flag_row l t) as Hrow.
  { intros l t Hl R1 N1 N2 R2 P2 S2 S3 S4 R3 P3.
    exists [], (nth 0 l d), [], (nth 1 l d),
      [nth 2 l d; nth 3 l d; nth 4 l d], (nth 5 l d), [].
    split_and!; try done; try apply Forall_nil_2.
    by apply Forall_cons_2; [|apply Forall_cons_2; [|apply Forall_cons_2]]. }
  destruct (scrape_flag_rows Sample.unicode_of
              (λ _ _, Return Sample.help_page)
              "http://help/move.html" Sample.fresh Sample.help_page
              (Tag "body" []
                 [Tag "table" [] [Sample.tr [Sample.td "Synopsis"]];
                  Sample.help_table])
              Sample.help_table
              (List.filter (is_signature_table Sample.unicode_of)
                 (find_all "table"
                    (Tag "table" [("width", "100%")] []) ++
                  List.tl (List.filter
                             (is_signature_table Sample.unicode_of)
                             (find_all "table"
                                (Tag "body" []
                                   [Tag "table" []
                                      [Sample.tr [Sample.td "Synopsis"]];
                                    Sample.help_table])))))
              [take 6 cells; drop 6 cells]
              [("absolute", "a", "boolean", "Perform an absolute operation.");
               ("translate", "t", "distance", "Move the object.")])
    as [Hp (flags & Hf & Hd & _)]; try (vm_compute; reflexivity).
  - constructor; [|constructor; [|constructor]].
    + apply Hrow;
        [ vm_compute; reflexivity
        | split; vm_compute; reflexivity
        | unfold clean_name; split_and!; vm_compute; reflexivity
        | unfold clean_name; split_and!; vm_compute; reflexivity
        | split; vm_compute; reflexivity
        | split; [discriminate | left; vm_compute; lia]
        | right; vm_compute; reflexivity
        | left; vm_compute; eexists; reflexivity
        | right; vm_compute; reflexivity
        | split; vm_compute; reflexivity
        | split; [discriminate | left; vm_compute; lia] ].
    + apply Hrow;
        [ vm_compute; reflexivity
        | split; vm_compute; reflexivity
        | unfold clean_name; split_and!; vm_compute; reflexivity
        | unfold clean_name; split_and!; vm_compute; reflexivity
        | split; vm_compute; reflexivity
        | split; [discriminate | left; vm_compute; lia]
        | right; vm_compute; reflexivity
        | left; vm_compute; eexists; reflexivity
        | right; vm_compute; reflexivity
        | split; vm_compute; reflexivity
        | split; [discriminate | left; vm_compute; lia] ].
  - split; [exact Hp|]. exists flags. split; [exact Hf|].
    rewrite Hd. simpl. by rewrite (right_id_L ∅ (∪)).
Defined.

(** X4: once a table is selected, [scrape_command] returns exactly when
    the loop over its cells returns and the number of elements read is a
    multiple of four, and then with at most a quarter as many flags as
    elements; an exception of the loop is the exception of
    [scrape_command]. *)
Theorem scrape_returns_iff (unicode_of : list node → string)
    (get_soup : list string → string → result node) (url : string)
    (w : world) (soup page_body table : node) (rest : list node) :
  get_soup (requests w) url = Return soup →
  body soup = Some page_body →
  List.filter (is_signature_table unicode_of)
    (find_all "table" page_body) = table :: rest →
  ((∃ flags,
      (scrape_command_body unicode_of get_soup url w).2 = Return flags) ↔
   ∃ data, collect_data (find_all "td" table) = Return data ∧
           length data mod 4 = 0) ∧
  (∀ flags data,
     (scrape_command_body unicode_of get_soup url w).2 = Return flags →
     collect_data (find_all "td" table) = Return data →
     size flags ≤ length data / 4) ∧
  (∀ e,
     collect_data (find_all "td" table) = Raise e →
     (scrape_command_body unicode_of get_soup url w).2 = Raise e).
Proof.
  intros Hs Hb Ht.
  rewrite (scrape_command_body_selected _ _ _ _ _ _ _ _ Hs Hb Ht).
  assert (∀ data, length data mod 4 = 0 →
          ∃ tuples, _compile_flag_table (group_data data) =
                      Return (assign_all ∅ tuples) ∧
                    length tuples = length data / 4) as Hfull.
  { intros data Hmod.
    destruct (groups_of_four _ (group_data_full _ Hmod))
      as (tuples & Hg & Hlen).
    exists tuples. rewrite Hg. split; [apply compile_loop_tuples|].
    rewrite Hlen, group_data_length.
    apply Nat.Div0.div_exact in Hmod. rewrite Hmod at 1.
    replace (4 * (length data / 4) + 3) with (3 + (length data / 4) * 4)
      by lia.
    rewrite Nat.div_add by lia. reflexivity. }
  assert (∀ data, length data mod 4 ≠ 0 →
          _compile_flag_table (group_data data) = Raise ValueError) as Hrag.
  { intros data Hmod. by apply compile_loop_bad_group, group_data_ragged. }
  destruct (collect_data (find_all "td" table)) as [data|e0];
    unfold mbind, result_bind.
  - split_and!.
    + split.
      * intros [flags Hf]. exists data. split; [done|].
        destruct (decide (length data mod 4 = 0)) as [|Hmod]; [done|].
        by rewrite (Hrag _ Hmod) in Hf.
      * intros (data' & [= <-] & Hmod).
        destruct (Hfull _ Hmod) as (tuples & Hc & _). eauto.
    + intros flags data' Hf [= <-].
      destruct (decide (length data mod 4 = 0)) as [Hmod|Hmod].
      * destruct (Hfull _ Hmod) as (tuples & Hc & Hlen).
        rewrite Hc in Hf. injection Hf as <-. rewrite <- Hlen.
        etrans; [apply assign_all_size|]. rewrite map_size_empty. lia.
      * by rewrite (Hrag _ Hmod) in Hf.
    + by intros e.
  - split_and!.
    + split; [by intros [flags Hf]|by intros (data & Hd & _)].
    + by intros flags data Hf.
    + by intros e [= <-].
Qed.

Lemma scrape_returns_iff_witness :
  (∃ flags,
     (scrape_command_body Sample.unicode_of (λ _ _, Return Sample.nbsp_page)
        "http://help/move.html" Sample.fresh).2 = Return flags) ∧
  ¬ (∃ flags,
       (scrape_command_body Sample.unicode_of
          (λ _ _, Return Sample.short_page)
          "http://help/move.html" Sample.fresh).2 = Return flags) ∧
  (scrape_command_body Sample.unicode_of (λ _ _, Return Sample.accent_page)
     "http://help/move.html" Sample.fresh).2 = Raise ValueError.
Proof.
  split_and!.
  - eapply (scrape_returns_iff Sample.unicode_of
              (λ _ _, Return Sample.nbsp_page)); try reflexivity.
    eexists. split; reflexivity.
  - intros H.
    eapply (scrape_returns_iff Sample.unicode_of
              (λ _ _, Return Sample.short_page)) in H; [|reflexivity..].
    destruct H as (data & [= <-] & H). vm_compute in H. discriminate H.
  - eapply (scrape_returns_iff Sample.unicode_of
              (λ _ _, Return Sample.accent_page)); reflexivity.
Defined.

(** ** Rows with distinct names *)

Section DistinctNames.

Implicit Types tuples : list (string * string * string * string).

Lemma name_in_names tuples t :
  t ∈ tuples → name_of t ∈ List.map name_of tuples.
Proof. intros H. apply list_elem_of_In, in_map. by apply list_elem_of_In. Qed.

Lemma filter_name_absent tuples name :
  name ∉ List.map name_of tuples →
  List.filter (λ t, bool_decide (name_of t = name)) tuples = [].
Proof.
  induction tuples as [|t tuples IH]; simpl; [done|].
  intros [Hne Hnot]%not_elem_of_cons.
  rewrite bool_decide_eq_false_2 by done. by apply IH.
Qed.

Lemma filter_name_unique tuples t :
  NoDup (List.map name_of tuples) → t ∈ tuples →
  List.filter (λ t', bool_decide (name_of t' = name_of t)) tuples = [t].
Proof.
  induction tuples as [|t0 tuples IH]; simpl.
  - by intros _ ?%elem_of_nil.
  - intros [Hnot Hnd]%NoDup_cons [->|Hin]%elem_of_cons.
    + rewrite bool_decide_eq_true_2 by done.
      by rewrite filter_name_absent.
    + rewrite bool_decide_eq_false_2; [by apply IH|].
      intros E. apply Hnot. rewrite E. by apply name_in_names.
Qed.

Lemma assign_all_distinct tuples t :
  NoDup (List.map name_of tuples) → t ∈ tuples →
  assign_all ∅ tuples !! name_of t = Some (flag_of t).
Proof.
  intros Hnd Hin. by rewrite assign_all_lookup, filter_name_unique.
Qed.

Lemma assign_all_absent tuples name :
  name ∉ List.map name_of tuples → assign_all ∅ tuples !! name = None.
Proof.
  intros H. by rewrite assign_all_lookup, filter_name_absent.
Qed.

Lemma names_permutation tuples tuples' :
  tuples' ≡ₚ tuples → List.map name_of tuples' ≡ₚ List.map name_of tuples.
Proof. intros H. by apply Permutation_map. Qed.

End DistinctNames.

(** X5: when the rows have distinct names the compiler keeps every row:
    the dict has as many flags as there are rows, each name has the fields
    of its row, and the order of the rows makes no difference. *)
Theorem compile_distinct_names
    (tuples : list (string * string * string * string)) :
  NoDup (List.map name_of tuples) →
  ∃ flags,
    _compile_flag_table (List.map group_of tuples) = Return flags ∧
    size flags = length tuples ∧
    (∀ t, t ∈ tuples → flags !! name_of t = Some (flag_of t)) ∧
    (∀ tuples', tuples' ≡ₚ tuples →
       _compile_flag_table (List.map group_of tuples') = Return flags).
Proof.
  intros Hnd. exists (assign_all ∅ tuples). split_and!.
  - apply compile_loop_tuples.
  - rewrite <- size_dom, assign_all_dom, dom_empty_L, (left_id_L ∅ (∪)).
    rewrite size_list_to_set by done. apply length_map.
  - intros t Hin. by apply assign_all_distinct.
  - intros tuples' Hperm. unfold _compile_flag_table.
    rewrite compile_loop_tuples. f_equal. apply map_eq. intros name.
    pose proof (names_permutation _ _ Hperm) as Hnames.
    destruct (decide (name ∈ List.map name_of tuples)) as [Hin|Hout].
    + apply list_elem_of_In, in_map_iff in Hin as (t & <- & Hin).
      apply list_elem_of_In in Hin.
      rewrite (assign_all_distinct tuples t) by done.
      apply assign_all_distinct; [by rewrite Hnames|by rewrite Hperm].
    + rewrite (assign_all_absent tuples) by done.
      apply assign_all_absent. by rewrite Hnames.
Qed.

Lemma compile_distinct_names_witness :
  _compile_flag_table
    [["scale"; "s"; "float"; "scale factor"];
     ["translate"; "t"; "distance"; "move by"]] =
  _compile_flag_table
    [["translate"; "t"; "distance"; "move by"];
     ["scale"; "s"; "float"; "scale factor"]].
Proof.
  destruct (compile_distinct_names
              [("translate", "t", "distance", "move by");
               ("scale", "s", "float", "scale factor")])
    as (flags & H1 & _ & _ & H2).
  - repeat constructor; rewrite ?elem_of_cons, ?elem_of_nil;
      intros H; intuition discriminate.
  - transitivity (Return (A:=CommandSignature) flags);
      [|symmetry; exact H1].
    apply (H2 [("scale", "s", "float", "scale factor");
               ("translate", "t", "distance", "move by")]).
    apply Permutation_swap.
Defined.

(** ** Batches *)

Section BatchFacts.

Variable unicode_of : list node → string.
Variable get_soup : list string → string → result node.
Variable maya_version : string.

Lemma scrape_command_cases url w :
  (∃ v, cache w !! url = Some v ∧
        scrape_command unicode_of get_soup url w = (w, Return v)) ∨
  (cache w !! url = None ∧
   ((∃ v, scrape_command unicode_of get_soup url w =
            (World (cache_file w) (temp_files w) (<[url := v]> (cache w))
               (command_signatures w) (requests w ++ [url]), Return v)) ∨
    (∃ e, scrape_command unicode_of get_soup url w =
            (set_requests (requests w ++ [url]) w, Raise e)))).
Proof.
  unfold scrape_command, KeyMemoized.
  destruct (cache w !! url) as [v|] eqn:Hc; [left; eauto|right].
  split; [done|]. unfold scrape_command_body.
  destruct (_ ≫= _) as [v|e]; [left|right]; eauto.
Qed.

(** What the loop over the commands keeps and what it adds. *)
Lemma store_loop_effect commands w w' r :
  store_loop unicode_of get_soup maya_version commands w = (w', r) →
  cache_file w' = cache_file w ∧ temp_files w' = temp_files w ∧
  cache w ⊆ cache w' ∧ requests w `prefix_of` requests w' ∧
  (r = Return () →
   requests w' =
     requests w ++
     new_urls (dom (cache w)) (List.map (_build_url maya_version) commands) ∧
   (∀ c, c ∈ commands →
      is_Some (command_signatures w' !! c) ∧
      command_signatures w' !! c = cache w' !! _build_url maya_version c) ∧
   (∀ c, c ∉ commands →
      command_signatures w' !! c = command_signatures w !! c)).
Proof.
  revert w. induction commands as [|c rest IH]; intros w; cbn [store_loop].
  - intros [= <- <-]. split_and!; try done.
    intros _. split_and!; [by rewrite app_nil_r| |done].
    by intros c ?%elem_of_nil.
  - set (url := _build_url maya_version c).
    destruct (scrape_command_cases url w)
      as [(v & Hc & ->)|(Hc & [(v & ->)|(e & ->)])].
    + intros H. apply IH in H as (Hf & Ht & Hsub & Hpre & Hok).
      split_and!; try done. intros ->.
      destruct (Hok eq_refl) as (Hreq & Hin & Hout). simpl in *.
      split_and!.
      * rewrite Hreq. fold url.
        destruct (decide (url ∈ dom (cache w))) as [|Hn]; [done|].
        exfalso. apply Hn, elem_of_dom. eauto.
      * intros c' Hc'. destruct (decide (c' ∈ rest)) as [|Hnr]; [by apply Hin|].
        apply elem_of_cons in Hc' as [->|]; [|done].
        rewrite (Hout c Hnr), lookup_insert_eq. split; [eauto|].
        symmetry. by apply (lookup_weaken _ _ _ _ Hc Hsub).
      * intros c' [Hne Hnr]%not_elem_of_cons.
        by rewrite (Hout c' Hnr), lookup_insert_ne.
    + intros H. apply IH in H as (Hf & Ht & Hsub & Hpre & Hok).
      simpl in *. split_and!; try done.
      * etrans; [|exact Hsub]. by apply insert_subseteq.
      * etrans; [|exact Hpre]. by apply prefix_app_r.
      * intros ->. destruct (Hok eq_refl) as (Hreq & Hin & Hout).
        split_and!.
        -- rewrite Hreq, dom_insert_L, <- app_assoc. fold url.
           destruct (decide (url ∈ dom (cache w))) as [Hd|]; [|done].
           apply elem_of_dom in Hd as [? Hd]. congruence.
        -- intros c' Hc'.
           destruct (decide (c' ∈ rest)) as [|Hnr]; [by apply Hin|].
           apply elem_of_cons in Hc' as [->|]; [|done].
           rewrite (Hout c Hnr), lookup_insert_eq. split; [eauto|].
           symmetry. apply (lookup_weaken _ _ _ _ (lookup_insert_eq _ _ _) Hsub).
        -- intros c' [Hne Hnr]%not_elem_of_cons.
           by rewrite (Hout c' Hnr), lookup_insert_ne.
    + intros [= <- <-]. simpl. split_and!; try done.
      by apply prefix_app_r.
Qed.

(** A batch whose URLs are all cached needs no request. *)
Lemma store_loop_cached commands w :
  (∀ c, c ∈ commands → is_Some (cache w !! _build_url maya_version c)) →
  ∃ cs,
    store_loop unicode_of get_soup maya_version commands w =
      (set_command_signatures cs w, Return ()) ∧
    (∀ c, c ∈ commands → cs !! c = cache w !! _build_url maya_version c) ∧
    (∀ c, c ∉ commands → cs !! c = command_signatures w !! c).
Proof.
  revert w. induction commands as [|c rest IH]; intros w Hall;
    cbn [store_loop].
  - exists (command_signatures w). split_and!; [by destruct w| |done].
    by intros c ?%elem_of_nil.
  - destruct (Hall c) as [v Hv]; [by left|].
    unfold scrape_command, KeyMemoized. rewrite Hv.
    destruct (IH (set_command_signatures
                    (<[c := v]> (command_signatures w)) w))
      as (cs & Hrun & Hin & Hout).
    { intros c' Hc'. apply Hall. by right. }
    exists cs. split_and!.
    + by rewrite Hrun.
    + intros c' Hc'. destruct (decide (c' ∈ rest)) as [|Hnr]; [by apply Hin|].
      apply elem_of_cons in Hc' as [->|]; [|done].
      by rewrite (Hout c Hnr), Hv; simpl; rewrite lookup_insert_eq.
    + intros c' [Hne Hnr]%not_elem_of_cons.
      rewrite (Hout c' Hnr). simpl. by rewrite lookup_insert_ne.
Qed.

End BatchFacts.

Section RunFacts.

Variable unicode_of : list node → string.
Variable get_soup : list string → string → result node.
Variable json_load : string → result Cache.
Variable json_dumps : Cache → bool → nat → bool → string.
Variable maya_version : string.

Lemma store_commands_loop commands :
  _store_commands unicode_of get_soup maya_version commands =
  store_loop unicode_of get_soup maya_version (commands_of commands).
Proof. by destruct commands. Qed.

Lemma read_tempfile_frame w :
  cache_file (_read_tempfile json_load w).1 = cache_file w ∧
  temp_files (_read_tempfile json_load w).1 = temp_files w ∧
  command_signatures (_read_tempfile json_load w).1 = command_signatures w ∧
  requests (_read_tempfile json_load w).1 = requests w.
Proof.
  unfold _read_tempfile, open_cache_file.
  destruct (cache_file w) as [contents|] eqn:E; simpl; [|done].
  unfold mbind, result_bind.
  destruct (json_load contents) as [data|e]; simpl; [done|].
  by destruct (is_exn ValueError e).
Qed.

(** A run when the file system does not fail. *)
Lemma run_stages commands w :
  run unicode_of get_soup json_load json_dumps maya_version commands w =
  match _read_tempfile json_load w with
  | (w1, Raise e) => (w1, Raise e)
  | (w1, Return _) =>
      match store_loop unicode_of get_soup maya_version
              (commands_of commands) w1 with
      | (w2, Raise e) => (w2, Raise e)
      | (w2, Return _) =>
          (World (Some (json_dumps (cache w2) false 4 true))
             (temp_files w2 ++ [json_dumps (cache w2) false 4 true])
             (cache w2) (command_signatures w2) (requests w2),
           Return (command_signatures w2))
      end
  end.
Proof.
  unfold run, run_on. rewrite store_commands_loop.
  destruct (_read_tempfile json_load w) as [w1 [u1|e1]]; [|done].
  destruct (store_loop _ _ _ _ w1) as [w2 [u2|e2]]; [|done].
  change (_write_tempfile_on json_dumps COPY_BUFSIZE None w2)
    with (_write_tempfile json_dumps w2).
  by rewrite write_result.
Qed.

(** The three stages of a run that returns. *)
Lemma stages_of_returning_run commands w w' sigs :
  run unicode_of get_soup json_load json_dumps maya_version commands w =
    (w', Return sigs) →
  ∃ w1 w2,
    _read_tempfile json_load w = (w1, Return ()) ∧
    store_loop unicode_of get_soup maya_version (commands_of commands) w1 =
      (w2, Return ()) ∧
    w' = World (Some (json_dumps (cache w2) false 4 true))
           (temp_files w2 ++ [json_dumps (cache w2) false 4 true])
           (cache w2) (command_signatures w2) (requests w2) ∧
    sigs = command_signatures w2.
Proof.
  rewrite run_stages.
  destruct (_read_tempfile json_load w) as [w1 [u1|e1]]; [|by intros [=]].
  destruct (store_loop _ _ _ _ w1) as [w2 [u2|e2]] eqn:Hs; [|by intros [=]].
  destruct u1, u2. intros [= <- <-].
  by exists w1, w2.
Qed.

End RunFacts.

(** X6: whatever a batch does, it leaves the cache file and the temporary
    files alone, it never removes or changes an entry of the in-memory
    cache, and it only adds to the requests made. *)
Theorem store_commands_keeps (unicode_of : list node → string)
    (get_soup : list string → string → result node)
    (maya_version : string) (commands : commands_arg) (w : world) :
  let after := _store_commands unicode_of get_soup maya_version commands w in
  cache_file after.1 = cache_file w ∧
  temp_files after.1 = temp_files w ∧
  cache w ⊆ cache after.1 ∧
  (∀ url flags, cache w !! url = Some flags →
                cache after.1 !! url = Some flags) ∧
  requests w `prefix_of` requests after.1.
Proof.
  intros after. subst after. rewrite store_commands_loop.
  destruct (store_loop _ _ _ _ w) as [w' r] eqn:Hs.
  apply store_loop_effect in Hs as (Hf & Ht & Hsub & Hpre & _). simpl.
  split_and!; try done.
  intros url flags Hc. by apply (lookup_weaken _ _ _ _ Hc Hsub).
Qed.

Lemma store_commands_keeps_witness :
  let after :=
    _store_commands Sample.unicode_of Sample.site "2017"
      (Commands ["nosuch"; "move"]) Sample.unsaved in
  after.2 = Raise IndexError ∧
  cache after.1 !! _build_url "2017" "move" =
    cache Sample.unsaved !! _build_url "2017" "move" ∧
  is_Some (cache after.1 !! _build_url "2017" "move").
Proof.
  intros after. split; [reflexivity|].
  destruct (store_commands_keeps Sample.unicode_of Sample.site "2017"
              (Commands ["nosuch"; "move"]) Sample.unsaved)
    as (_ & _ & _ & H & _).
  fold after in H. split; [|by eexists].
  by apply (H (_build_url "2017" "move")).
Defined.

(** X7: a batch that returns has requested exactly the URLs that were not
    cached, each once and in the order the commands first name them; every
    command of the batch is then stored with the signature cached under its
    URL, and the signatures of other commands are as before. *)
Theorem store_commands_stores (unicode_of : list node → string)
    (get_soup : list string → string → result node)
    (maya_version : string) (commands : commands_arg) (w w' : world) :
  _store_commands unicode_of get_soup maya_version commands w =
    (w', Return ()) →
  requests w' =
    requests w ++
    new_urls (dom (cache w))
      (List.map (_build_url maya_version) (commands_of commands)) ∧
  (∀ c, c ∈ commands_of commands →
     is_Some (command_signatures w' !! c) ∧
     command_signatures w' !! c = cache w' !! _build_url maya_version c) ∧
  (∀ c, c ∉ commands_of commands →
     command_signatures w' !! c = command_signatures w !! c).
Proof.
  rewrite store_commands_loop. intros Hs.
  apply store_loop_effect in Hs as (_ & _ & _ & _ & Hok).
  by apply Hok.
Qed.

Lemma store_commands_stores_witness :
  requests
    (_store_commands Sample.unicode_of Sample.site "2017"
       (Commands ["move"; "move"]) Sample.fresh).1 =
  [_build_url "2017" "move"].
Proof.
  destruct (store_commands_stores Sample.unicode_of Sample.site "2017"
              (Commands ["move"; "move"]) Sample.fresh
              (_store_commands Sample.unicode_of Sample.site "2017"
                 (Commands ["move"; "move"]) Sample.fresh).1)
    as (H & _); [reflexivity|].
  rewrite H. reflexivity.
Defined.



(** X9: a run that returns leaves on disk the serialisation of the cache
    it ends with, has left one more temporary file holding the same text,
    and returns the signatures of the instance: every command of the batch
    with the signature cached under its URL, the others as before. *)
Theorem run_returns (unicode_of : list node → string)
    (get_soup : list string → string → result node)
    (json_load : string → result Cache)
    (json_dumps : Cache → bool → nat → bool → string)
    (maya_version : string) (commands : commands_arg) (w w' : world)
    (sigs : gmap string CommandSignature) :
  run unicode_of get_soup json_load json_dumps maya_version commands w =
    (w', Return sigs) →
  sigs = command_signatures w' ∧
  cache_file w' = Some (json_dumps (cache w') false 4 true) ∧
  temp_files w' = temp_files w ++ [json_dumps (cache w') false 4 true] ∧
  (∀ c, c ∈ commands_of commands →
     is_Some (sigs !! c) ∧
     sigs !! c = cache w' !! _build_url maya_version c) ∧
  (∀ c, c ∉ commands_of commands →
     sigs !! c = command_signatures w !! c).
Proof.
  intros H.
  apply stages_of_returning_run in H.
  destruct H as (w1 & w2 & Hread & Hstore & Hw & Hs).
  subst w' sigs. simpl.
  pose proof (read_tempfile_frame json_load w) as (_ & Ht & Hcs & _).
  rewrite Hread in Ht, Hcs. simpl in *.
  apply store_loop_effect in Hstore as (_ & Ht2 & _ & _ & Hok).
  destruct (Hok eq_refl) as (_ & Hin & Hout).
  split_and!; try done.
  - by rewrite Ht2, Ht.
  - intros c Hc. by rewrite (Hout c Hc), Hcs.
Qed.

Lemma run_returns_witness :
  let after :=
    run Sample.unicode_of Sample.site Sample.json_load
      (one_text_dumps "{move}") "2017" (Commands ["move"]) Sample.fresh in
  cache_file after.1 = Some "{move}" ∧ temp_files after.1 = ["{move}"] ∧
  ∃ sigs, after.2 = Return sigs ∧ is_Some (sigs !! "move").
Proof.
  intros after.
  destruct (run_returns Sample.unicode_of Sample.site Sample.json_load
              (one_text_dumps "{move}") "2017" (Commands ["move"])
              Sample.fresh after.1 (command_signatures after.1))
    as (_ & H1 & H2 & H3 & _); [reflexivity|].
  split_and!; [done..|].
  eexists. split; [reflexivity|]. apply H3. by left.
Defined.



(** X11: with a [json] that reads back what it wrote for the cache a run
    ends with, running the same batch again makes no request, changes
    neither the cache nor the cache file, returns the same signatures, and
    leaves one more temporary file. *)
Theorem run_again (unicode_of : list node → string)
    (get_soup : list string → string → result node)
    (json_load : string → result Cache)
    (json_dumps : Cache → bool → nat → bool → string)
    (maya_version : string) (commands : commands_arg) (w w1 : world)
    (sigs : gmap string CommandSignature) :
  run unicode_of get_soup json_load json_dumps maya_version commands w =
    (w1, Return sigs) →
  json_load (json_dumps (cache w1) false 4 true) = Return (cache w1) →
  run unicode_of get_soup json_load json_dumps maya_version commands w1 =
    (set_temp_files
       (temp_files w1 ++ [json_dumps (cache w1) false 4 true]) w1,
     Return sigs).
Proof.
  intros H Hjson.
  apply stages_of_returning_run in H.
  destruct H as (w0 & w2 & Hread & Hstore & Hw & Hs).
  subst w1 sigs. simpl in Hjson.
  apply store_loop_effect in Hstore as (_ & _ & _ & _ & Hok).
  destruct (Hok eq_refl) as (_ & Hin & _).
  set (text := json_dumps (cache w2) false 4 true) in *.
  set (w3 := World (Some text) (temp_files w2 ++ [text]) (cache w2)
               (command_signatures w2) (requests w2)).
  assert (_read_tempfile json_load w3 = (w3, Return ())) as Hread3.
  { unfold _read_tempfile, open_cache_file. simpl.
    unfold mbind, result_bind. by rewrite Hjson. }
  destruct (store_loop_cached unicode_of get_soup maya_version
              (commands_of commands) w3) as (cs & Hstore3 & Hin3 & Hout3).
  { intros c Hc. destruct (Hin c Hc) as [Hsome Heq].
    unfold w3. simpl. by rewrite <- Heq. }
  assert (cs = command_signatures w2) as ->.
  { apply map_eq. intros c.
    destruct (decide (c ∈ commands_of commands)) as [Hc|Hc].
    - rewrite (Hin3 c Hc). simpl. symmetry. by apply Hin.
    - by rewrite (Hout3 c Hc). }
  by rewrite run_stages, Hread3, Hstore3.
Qed.

Lemma run_again_witness :
  let flags : CommandSignature :=
    {[ "translate" := {| short := "t"; data_type := "distance";
                         description := "linear distance value" |} ]} in
  let load :=
    one_text_load "{move}" {[ _build_url "2017" "move" := flags ]} in
  let first :=
    run Sample.unicode_of Sample.changing_site load (one_text_dumps "{move}")
      "2017" (Commands ["move"]) Sample.fresh in
  let second :=
    run Sample.unicode_of Sample.changing_site load (one_text_dumps "{move}")
      "2017" (Commands ["move"]) first.1 in
  first.2 = Return {[ "move" := flags ]} ∧
  second.2 = Return {[ "move" := flags ]} ∧
  requests second.1 = [_build_url "2017" "move"].
Proof.
  intros flags load first second. split; [reflexivity|].
  pose proof (run_again Sample.unicode_of Sample.changing_site load
                (one_text_dumps "{move}") "2017" (Commands ["move"])
                Sample.fresh first.1 {[ "move" := flags ]}
                eq_refl eq_refl) as H.
  subst second. rewrite H. by split.
Defined.

(** X12: what one process saves another loads: with a [json] that reads
    back what it wrote for the cache saved, a load after the save gives
    that cache, whatever the in-memory cache was before the load. *)
Theorem save_then_load (json_load : string → result Cache)
    (json_dumps : Cache → bool → nat → bool → string)
    (w : world) (stale : Cache) :
  json_load (json_dumps (cache w) false 4 true) = Return (cache w) →
  cache (_read_tempfile json_load
           (set_cache stale (_write_tempfile json_dumps w).1)).1 = cache w ∧
  (_read_tempfile json_load
     (set_cache stale (_write_tempfile json_dumps w).1)).2 = Return ().
Proof.
  intros Hjson. rewrite write_result. cbn [fst].
  unfold _read_tempfile, open_cache_file. simpl.
  unfold mbind, result_bind. by rewrite Hjson.
Qed.

Lemma save_then_load_witness :
  cache (_read_tempfile Sample.json_load
           (set_cache (cache Sample.unsaved)
              (_write_tempfile Sample.json_dumps Sample.fresh).1)).1 = ∅.
Proof.
  by destruct (save_then_load Sample.json_load Sample.json_dumps Sample.fresh
                 (cache Sample.unsaved) eq_refl).
Defined.

(** ** Exceptions of the load *)

(** X13: the load never changes anything but the in-memory cache.  An
    [IOError], whether the file is absent or [json.load] raises it while
    reading, is swallowed and leaves the cache as it was.  The load raises
    exactly when the file exists and [json.load] raises something that is
    neither [ValueError] nor [IOError], and then too the cache is as it
    was. *)
Theorem read_tempfile_exceptions (json_load : string → result Cache)
    (w : world) :
  cache_file (_read_tempfile json_load w).1 = cache_file w ∧
  temp_files (_read_tempfile json_load w).1 = temp_files w ∧
  command_signatures (_read_tempfile json_load w).1 = command_signatures w ∧
  requests (_read_tempfile json_load w).1 = requests w ∧
  (∀ contents,
     cache_file w = Some contents → json_load contents = Raise IOError →
     _read_tempfile json_load w = (w, Return ())) ∧
  (∀ e,
     (_read_tempfile json_load w).2 = Raise e ↔
     ∃ contents, cache_file w = Some contents ∧
                 json_load contents = Raise e ∧
                 e ≠ ValueError ∧ e ≠ IOError) ∧
  (∀ e, (_read_tempfile json_load w).2 = Raise e →
        (_read_tempfile json_load w).1 = w).
Proof.
  unfold _read_tempfile, open_cache_file.
  destruct (cache_file w) as [contents|] eqn:Hfile; simpl.
  - unfold mbind, result_bind.
    destruct (json_load contents) as [data|e0] eqn:Hload; simpl.
    + split_and!; try done.
      * intros c [= <-] Hl. congruence.
      * intros e. split; [done|].
        intros (c & [= <-] & Hl & _). congruence.
    + destruct e0; simpl; split_and!; try done.
      all: try (intros c [= <-] Hl; congruence).
      all: intros e; split.
      all: try (intros (c & [= <-] & Hl & Hv & Hio); congruence).
      all: try done.
      all: intros [= <-]; exists contents; by split_and!.
  - split_and!; try done. intros e. split; [done|].
    by intros (c & [=] & _).
Qed.

Lemma read_tempfile_exceptions_witness :
  _read_tempfile (λ _, Raise IOError)
    (set_cache_file (Some "{}") Sample.unsaved) =
    (set_cache_file (Some "{}") Sample.unsaved, Return ()) ∧
  (_read_tempfile (λ _, Raise KeyError)
     (set_cache_file (Some "{}") Sample.unsaved)).2 = Raise KeyError.
Proof.
  split.
  - destruct (read_tempfile_exceptions (λ _, Raise IOError)
                (set_cache_file (Some "{}") Sample.unsaved))
      as (_ & _ & _ & _ & H & _).
    by apply (H "{}").
  - destruct (read_tempfile_exceptions (λ _, Raise KeyError)
                (set_cache_file (Some "{}") Sample.unsaved))
      as (_ & _ & _ & _ & _ & H & _).
    apply H. exists "{}". by split_and!.
Defined.

(** ** Queries *)

Section QueryFacts.

Variable dict_keys : ∀ V : Type, gmap string V → list string.

Lemma short_names_walk command w flags walked :
  command_signatures w !! command = Some flags →
  (∀ k, k ∈ walked → is_Some (flags !! k)) →
  short_names command w walked =
  Return (List.map (λ k, from_option short "" (flags !! k)) walked).
Proof.
  intros Hcmd. induction walked as [|k walked IH]; intros Hall; [done|].
  cbn [short_names]. unfold getitem. rewrite Hcmd.
  destruct (Hall k) as [v Hv]; [by left|].
  cbn [mbind result_bind]. rewrite Hv.
  rewrite IH by (intros k' Hk'; apply Hall; by right).
  simpl. by rewrite Hv.
Qed.

Lemma zip_with_image {A B : Type} (f : A → B) (l : list A) :
  zip l (List.map f l) = List.map (λ x, (x, f x)) l.
Proof. induction l as [|x l IH]; simpl; [done|]. by rewrite IH. Qed.

Lemma walked_keys {V : Type} (m : gmap string V) (k : string) :
  dict_keys V m ≡ₚ (map_to_list m).*1 →
  k ∈ dict_keys V m ↔ is_Some (m !! k).
Proof.
  intros ->. rewrite list_elem_of_fmap. split.
  - intros ([k' v] & -> & Hin). apply elem_of_map_to_list in Hin. eauto.
  - intros [v Hv]. exists (k, v). split; [done|].
    by apply elem_of_map_to_list.
Qed.

Lemma walked_keys_NoDup {V : Type} (m : gmap string V) :
  dict_keys V m ≡ₚ (map_to_list m).*1 → NoDup (dict_keys V m).
Proof. intros ->. apply NoDup_fst_map_to_list. Qed.

Lemma walked_keys_length {V : Type} (m : gmap string V) :
  dict_keys V m ≡ₚ (map_to_list m).*1 → length (dict_keys V m) = size m.
Proof. intros ->. by rewrite length_fmap, length_map_to_list. Qed.

End QueryFacts.

(** X14: [get_command_flags] raises [KeyError] for a command that is not
    stored.  For a stored command it returns one pair per flag, the long
    names in the order the dict is walked and without repetition, each with
    the short name of that flag. *)
Theorem command_flags_pairs
    (dict_keys : ∀ V : Type, gmap string V → list string)
    (command : string) (w : world) :
  (∀ (V : Type) (m : gmap string V), dict_keys V m ≡ₚ (map_to_list m).*1) →
  (command_signatures w !! command = None →
   get_command_flags dict_keys command w = Raise KeyError) ∧
  (∀ flags,
     command_signatures w !! command = Some flags →
     ∃ pairs,
       get_command_flags dict_keys command w = Return pairs ∧
       pairs.*1 = dict_keys _ flags ∧
       NoDup (pairs.*1) ∧
       length pairs = size flags ∧
       ∀ long sh,
         (long, sh) ∈ pairs ↔ ∃ v, flags !! long = Some v ∧ short v = sh).
Proof.
  intros Hkeys. split.
  - intros Hcmd. unfold get_command_flags, getitem. by rewrite Hcmd.
  - intros flags Hcmd.
    set (f := λ k, from_option short "" (flags !! k)).
    exists (List.map (λ k, (k, f k)) (dict_keys _ flags)).
    assert ((List.map (λ k, (k, f k)) (dict_keys _ flags)).*1 =
            dict_keys _ flags) as Hfst.
    { generalize (dict_keys FlagRecord flags).
      intros l. induction l as [|k l IH]; [done|].
      simpl. f_equal. exact IH. }
    split_and!.
    + unfold get_command_flags, getitem. rewrite Hcmd.
      unfold mbind at 1. unfold result_bind at 1.
      unfold mbind at 1. unfold result_bind at 1.
      rewrite (short_names_walk _ _ _ _ Hcmd).
      * unfold mbind, result_bind. by rewrite zip_with_image.
      * intros k Hk. by apply (walked_keys dict_keys flags k (Hkeys _ _)).
    + done.
    + rewrite Hfst. apply walked_keys_NoDup, Hkeys.
    + rewrite length_map. apply walked_keys_length, Hkeys.
    + intros long sh. rewrite list_elem_of_In, in_map_iff. split.
      * intros (k & [= <- <-] & Hin). apply list_elem_of_In in Hin.
        apply (walked_keys dict_keys flags k (Hkeys _ _)) in Hin as [v Hv].
        exists v. unfold f. by rewrite Hv.
      * intros (v & Hv & <-). exists long. split.
        -- unfold f. by rewrite Hv.
        -- apply list_elem_of_In.
           apply (walked_keys dict_keys flags long (Hkeys _ _)). eauto.
Qed.

Lemma command_flags_pairs_witness :
  let w := World None [] ∅
             {[ "move" := {[ "translate" :=
                               {| short := "t"; data_type := "distance";
                                  description := "move by" |} ]} ]} [] in
  get_command_flags (λ V m, (map_to_list m).*1) "scale" w = Raise KeyError ∧
  ∃ pairs,
    get_command_flags (λ V m, (map_to_list m).*1) "move" w = Return pairs ∧
    length pairs = 1.
Proof.
  intros w.
  destruct (command_flags_pairs (λ V m, (map_to_list m).*1) "scale" w)
    as [H1 _]; [done|].
  destruct (command_flags_pairs (λ V m, (map_to_list m).*1) "move" w)
    as [_ H2]; [done|].
  split; [by apply H1|].
  destruct (H2 _ eq_refl) as (pairs & Hp & _ & _ & Hlen & _).
  exists pairs. split; [done|]. by rewrite Hlen.
Defined.

(** X15: after a new instance has run its batch, [stored_commands] lists
    exactly the commands of the batch, each once, however often the batch
    names them. *)
Theorem stored_after_init
    (dict_keys : ∀ V : Type, gmap string V → list string)
    (unicode_of : list node → string)
    (get_soup : list string → string → result node)
    (json_load : string → result Cache)
    (json_dumps : Cache → bool → nat → bool → string)
    (maya_version : string) (commands : commands_arg) (w w' : world) :
  (∀ (V : Type) (m : gmap string V), dict_keys V m ≡ₚ (map_to_list m).*1) →
  __init__ unicode_of get_soup json_load json_dumps maya_version commands w =
    (w', Return ()) →
  NoDup (stored_commands dict_keys w') ∧
  ∀ c, c ∈ stored_commands dict_keys w' ↔ c ∈ commands_of commands.
Proof.
  intros Hkeys. unfold __init__, stored_commands.
  destruct (run _ _ _ _ _ _ _) as [w0 [sigs|e]] eqn:Hrun; [|by intros [=]].
  intros [= <-]. split; [apply walked_keys_NoDup, Hkeys|].
  apply stages_of_returning_run in Hrun.
  destruct Hrun as (w1 & w2 & Hread & Hstore & Hw & Hs). subst w0.
  simpl.
  pose proof (read_tempfile_frame json_load (set_command_signatures ∅ w))
    as (_ & _ & Hcs & _).
  rewrite Hread in Hcs. simpl in Hcs.
  apply store_loop_effect in Hstore as (_ & _ & _ & _ & Hok).
  destruct (Hok eq_refl) as (_ & Hin & Hout).
  intros c. rewrite (walked_keys dict_keys _ c (Hkeys _ _)). split.
  - intros Hsome.
    destruct (decide (c ∈ commands_of commands)) as [|Hc]; [done|].
    rewrite (Hout c Hc), Hcs, lookup_empty in Hsome.
    by destruct Hsome.
  - intros Hc. by apply Hin.
Qed.

Lemma stored_after_init_witness :
  stored_commands (λ V m, (map_to_list m).*1)
    (__init__ Sample.unicode_of Sample.site Sample.json_load
       Sample.json_dumps "2017" (Commands ["move"; "move"]) Sample.fresh).1
  = ["move"].
Proof.
  destruct (stored_after_init (λ V m, (map_to_list m).*1)
              Sample.unicode_of Sample.site Sample.json_load
              Sample.json_dumps "2017" (Commands ["move"; "move"])
              Sample.fresh
              (__init__ Sample.unicode_of Sample.site Sample.json_load
                 Sample.json_dumps "2017" (Commands ["move"; "move"])
                 Sample.fresh).1) as [_ H]; [done|reflexivity|].
  reflexivity.
Defined.

(** X16: [build_command_stub] raises [KeyError] for a command that is not
    stored, whatever the options; for a stored command without flags it
    returns the stub whose parameter list is the star-args parameter
    followed by a comma and a space. *)
Theorem stub_edges
    (iteritems : CommandSignature → list (string * FlagRecord))
    (command : string) (shortname combined : bool) (w : world) :
  (∀ flags, iteritems flags ≡ₚ map_to_list flags) →
  (command_signatures w !! command = None →
   build_command_stub iteritems command shortname combined w =
   Raise KeyError) ∧
  (command_signatures w !! command = Some ∅ →
   build_command_stub iteritems command shortname combined w =
   Return ("def " +:+ command +:+ "(*args, ):" +:+
           String Py.newline (String Py.tab "pass"))).
Proof.
  intros Hiter. unfold build_command_stub, getitem. split; intros ->.
  - done.
  - unfold mbind at 1. unfold result_bind at 1.
    assert (iteritems ∅ = []) as ->.
    { apply Permutation_nil_r. by rewrite Hiter, map_to_list_empty. }
    reflexivity.
Qed.

Lemma stub_edges_witness :
  build_command_stub map_to_list "scale" true false
    (World None [] ∅ {[ "move" := ∅ ]} []) = Raise KeyError ∧
  build_command_stub map_to_list "move" true false
    (World None [] ∅ {[ "move" := ∅ ]} []) =
    Return ("def move(*args, ):" +:+
            String Py.newline (String Py.tab "pass")).
Proof.
  split.
  - by apply (stub_edges map_to_list "scale" true false).
  - by apply (stub_edges map_to_list "move" true false).
Defined.

(** A batch that returns caches nothing but URLs of its commands. *)
Lemma store_loop_new_entries unicode_of get_soup maya_version cs w0 w3 :
  store_loop unicode_of get_soup maya_version cs w0 = (w3, Return ()) →
  ∀ url, is_Some (cache w3 !! url) →
         is_Some (cache w0 !! url) ∨
         url ∈ List.map (_build_url maya_version) cs.
Proof.
  revert w0 w3. induction cs as [|c cs IH]; intros w0 w3; cbn [store_loop].
  - intros [= <-]. eauto.
  - destruct (scrape_command_cases unicode_of get_soup
                (_build_url maya_version c) w0)
      as [(v & Hc & ->)|(Hc & [(v & ->)|(e & ->)])]; [| |by intros [=]].
    + intros H url Hu. destruct (IH _ _ H url Hu) as [?|?]; [by left|].
      right. simpl. by right.
    + intros H url Hu. destruct (IH _ _ H url Hu) as [Hs|?].
      * simpl in Hs.
        destruct (decide (url = _build_url maya_version c)) as [->|Hne].
        -- right. simpl. by left.
        -- rewrite lookup_insert_ne in Hs by done. by left.
      * right. simpl. by right.
Qed.

(** X17: a run after [reset_cache] starts from an empty cache, since the
    emptied file is not JSON: if it returns, it has requested the URL of
    every command of the batch, each once, whatever the in-memory cache
    held before the reset, and the cache it ends with holds URLs of the
    batch only. *)
Theorem run_after_reset (unicode_of : list node → string)
    (get_soup : list string → string → result node)
    (json_load : string → result Cache)
    (json_dumps : Cache → bool → nat → bool → string)
    (maya_version : string) (commands : commands_arg) (w w' : world)
    (sigs : gmap string CommandSignature) :
  json_load "" = Raise ValueError →
  run unicode_of get_soup json_load json_dumps maya_version commands
    (reset_cache w).1 = (w', Return sigs) →
  requests w' =
    requests w ++
    new_urls ∅ (List.map (_build_url maya_version) (commands_of commands)) ∧
  ∀ url, is_Some (cache w' !! url) →
         url ∈ List.map (_build_url maya_version) (commands_of commands).
Proof.
  intros Hjson Hrun. apply stages_of_returning_run in Hrun.
  destruct Hrun as (w1 & w2 & Hread & Hstore & Hw & Hs). subst w' sigs.
  rewrite (reset_cache_then_load json_load w Hjson) in Hread.
  injection Hread as <-. simpl.
  pose proof (store_loop_effect _ _ _ _ _ _ _ Hstore)
    as (_ & _ & _ & _ & Hok).
  destruct (Hok eq_refl) as (Hreq & _ & _). simpl in Hreq.
  rewrite dom_empty_L in Hreq. split; [done|].
  intros url Hu.
  destruct (store_loop_new_entries _ _ _ _ _ _ Hstore url Hu) as [Hs|?];
    [|done].
  simpl in Hs. rewrite lookup_empty in Hs. by destruct Hs.
Qed.

Lemma run_after_reset_witness :
  let after :=
    run Sample.unicode_of Sample.site Sample.json_load
      (one_text_dumps "{move}") "2017" (Commands ["move"])
      (reset_cache Sample.unsaved).1 in
  requests after.1 = requests Sample.unsaved ++ [_build_url "2017" "move"].
Proof.
  intros after.
  by destruct (run_after_reset Sample.unicode_of Sample.site
                 Sample.json_load (one_text_dumps "{move}") "2017"
                 (Commands ["move"]) Sample.unsaved after.1
                 (command_signatures after.1) eq_refl eq_refl) as [H _].
Defined.
